(** * hajimi: the dashboard router ([app/api/dashboard.py])

    A shallow embedding of the two request handlers of the dashboard router,
    [get_dashboard_data] and [reset_stats], together with the fragment of
    Python they rely on: exceptions, the numeric tower restricted to [int]
    and [float], [round], [sum], string slicing and [list.sort].

    Conventions.
    - A Python [int] is a [Z]; a Python [float] is an IEEE 754 binary64
      value, represented by [spec_float] with the operations of
      [SpecFloat] at precision 53 and maximal exponent 1024.
    - A Python [str] is the [string] of its UTF-8 bytes; its characters are
      the code points, each a leading byte followed by continuation bytes.
    - A Python [dict] is a [gmap]; iterating it goes through [map_to_list].
      Nothing below depends on the iteration order.
    - A statement that may raise has a type [Result A]; a handler that also
      reads or writes the process-wide objects has type [M A], a state and
      exception monad over [World].
    - Functions and constants imported by the router from other modules
      are collected in the class [Externals]. *)

From Stdlib Require Import ZArith QArith Floats.SpecFloat.
From stdpp Require Import gmap strings list fin_maps sorting.

Open Scope Z_scope.

(** ** Exceptions *)

(** An exception of a built-in class carries its message, the [str(e)] of
    Python. *)
Inductive exn :=
  | ValueError (message : string)
  | TypeError (message : string)
  | AttributeError (message : string)
  | ZeroDivisionError (message : string)
  | OverflowError (message : string)
  | HTTPException (status_code : Z) (detail : string).

Inductive Result (A : Type) :=
  | Ok (a : A)
  | Raise (e : exn).
Arguments Ok {A} a.
Arguments Raise {A} e.

#[global] Instance Result_ret : MRet Result := @Ok.
#[global] Instance Result_bind : MBind Result := λ A B f r,
  match r with
  | Ok a => f a
  | Raise e => Raise e
  end.

(** [isinstance(e, ValueError)] *)
Definition is_ValueError (e : exn) : bool :=
  match e with
  | ValueError _ => true
  | _ => false
  end.

(** ** Numbers *)

Definition prec : Z := 53.
Definition emax : Z := 1024.

Inductive pynum :=
  | PyInt (z : Z)
  | PyFloat (x : spec_float).

(** The integer [z] with mantissa [|z|] and exponent 0, not yet rounded. *)
Definition float_of_Z (z : Z) : spec_float :=
  match z with
  | Z0 => S754_zero false
  | Zpos p => S754_finite false p 0
  | Zneg p => S754_finite true p 0
  end.

(** [float(z)]: the nearest double, ties to even. *)
Definition py_float_of_int (z : Z) : Result spec_float :=
  match binary_normalize prec emax z 0 false with
  | S754_infinity _ => Raise (OverflowError "int too large to convert to float")
  | x => Ok x
  end.

(** [a / b] on two [int]s: the quotient rounded once to the nearest double. *)
Definition py_int_truediv (a b : Z) : Result spec_float :=
  if b =? 0 then Raise (ZeroDivisionError "division by zero")
  else
    match SFdiv prec emax (float_of_Z a) (float_of_Z b) with
    | S754_infinity _ =>
        Raise (OverflowError "integer division result too large for a float")
    | q => Ok q
    end.

(** [x * n] for a [float] [x] and an [int] [n]. *)
Definition py_float_mul_int (x : spec_float) (n : Z) : Result spec_float :=
  y ← py_float_of_int n; Ok (SFmul prec emax x y).

(** [num / den] rounded to the nearest integer, ties to the even one
    ([0 <= num], [0 < den]). *)
Definition round_half_even (num den : Z) : Z :=
  let q := num / den in
  let r := num mod den in
  match 2 * r ?= den with
  | Lt => q
  | Gt => q + 1
  | Eq => if Z.even q then q else q + 1
  end.

(** The integer nearest to [m * 2^e * 10^ndigits]. *)
Definition scaled_digits (m : positive) (e : Z) (ndigits : Z) : Z :=
  if 0 <=? e then Zpos m * 2 ^ e * 10 ^ ndigits
  else round_half_even (Zpos m * 10 ^ ndigits) (2 ^ (- e)).

(** [round(x, ndigits)] on a [float], for [0 <= ndigits]: the decimal with
    [ndigits] places nearest to [x] (ties to even), converted back to the
    nearest double. *)
Definition py_float_round (x : spec_float) (ndigits : Z) : Result spec_float :=
  match x with
  | S754_finite s m e =>
      match scaled_digits m e ndigits with
      | Zpos n =>
          match SFdiv prec emax (S754_finite s n 0) (float_of_Z (10 ^ ndigits)) with
          | S754_infinity _ =>
              Raise (OverflowError "rounded value too large to represent")
          | r => Ok r
          end
      | _ => Ok (S754_zero s)
      end
  | _ => Ok x
  end.

(** [round(v, ndigits)] for [0 <= ndigits]; an [int] rounds to itself. *)
Definition py_round (v : pynum) (ndigits : Z) : Result pynum :=
  match v with
  | PyInt z => Ok (PyInt z)
  | PyFloat x => r ← py_float_round x ndigits; Ok (PyFloat r)
  end.

(** *** Comparison

    Python compares an [int] with a [float], and two [float]s, by their
    exact values; every comparison with a NaN is false. *)

Inductive xval :=
  | VNaN
  | VNegInf
  | VFin (q : Q)
  | VPosInf.

Definition Q_of_dyadic (m e : Z) : Q :=
  if 0 <=? e then inject_Z (m * 2 ^ e) else Qmake m (Z.to_pos (2 ^ (- e))).

Definition float_val (x : spec_float) : xval :=
  match x with
  | S754_zero _ => VFin 0
  | S754_infinity false => VPosInf
  | S754_infinity true => VNegInf
  | S754_nan => VNaN
  | S754_finite false m e => VFin (Q_of_dyadic (Zpos m) e)
  | S754_finite true m e => VFin (Q_of_dyadic (Zneg m) e)
  end.

Definition py_val (v : pynum) : xval :=
  match v with
  | PyInt z => VFin (inject_Z z)
  | PyFloat x => float_val x
  end.

Definition Qltb (p q : Q) : bool :=
  Qnum p * Zpos (Qden q) <? Qnum q * Zpos (Qden p).

Definition xval_ltb (a b : xval) : bool :=
  match a, b with
  | VNaN, _ | _, VNaN => false
  | VNegInf, VNegInf => false
  | VNegInf, _ => true
  | _, VNegInf => false
  | VPosInf, _ => false
  | VFin _, VPosInf => true
  | VFin p, VFin q => Qltb p q
  end.

(** [a < b] *)
Definition py_lt (a b : pynum) : bool := xval_ltb (py_val a) (py_val b).

(** [a >= b] *)
Definition py_ge (a b : pynum) : bool :=
  match py_val a, py_val b with
  | VNaN, _ | _, VNaN => false
  | va, vb => negb (xval_ltb va vb)
  end.

(** [a == b] *)
Definition py_eq (a b : pynum) : bool := py_ge a b && py_ge b a.

(** ** Strings, sums, sorting *)

(** A byte [10xxxxxx], which continues the character begun before it. *)
Definition is_continuation (c : Ascii.ascii) : bool :=
  match c with
  | Ascii.Ascii _ _ _ _ _ _ b6 b7 => b7 && negb b6
  end.

(** [len(s)]: the number of characters, one for every byte that is not a
    continuation. *)
Fixpoint py_len_str (s : string) : nat :=
  match s with
  | EmptyString => O
  | String c s' =>
      if is_continuation c then py_len_str s' else S (py_len_str s')
  end.

(** [s[:n]] for [0 <= n]: the bytes of the first [n] characters. *)
Fixpoint py_slice_to (n : nat) (s : string) : string :=
  match s with
  | EmptyString => EmptyString
  | String c s' =>
      if is_continuation c then String c (py_slice_to n s')
      else
        match n with
        | O => EmptyString
        | S n' => String c (py_slice_to n' s')
        end
  end.

(** [sum(xs)] on [int]s: starts from 0 and adds from the left. *)
Definition py_sum (xs : list Z) : Z := fold_left Z.add xs 0.

(** [d.items()] and [d.values()] *)
Definition dict_items {V} (d : gmap string V) : list (string * V) := map_to_list d.
Definition dict_values {V} (d : gmap string V) : list V := (map_to_list d).*2.

(** [len(d)] *)
Definition py_len {V} (d : gmap string V) : Z := Z.of_nat (size d).

Section Sort.
Context {A : Type} (key : A → pynum).

(** Insertion in front of the first element that is not smaller: among
    elements with equal keys the inserted one comes first. *)
Fixpoint insert_before (x : A) (l : list A) : list A :=
  match l with
  | [] => [x]
  | y :: l' => if py_lt (key y) (key x) then y :: insert_before x l' else x :: l
  end.

(** A stable ascending sort that compares keys with [<] only. *)
Definition stable_sort (l : list A) : list A := foldr insert_before [] l.

(** [l.sort(key=key, reverse=True)]: the list is reversed, sorted stably in
    ascending order, and reversed again. *)
Definition py_sort_reverse (l : list A) : list A :=
  reverse (stable_sort (reverse l)).

End Sort.

(** ** The process-wide objects

    [settings.api_call_stats] has one entry per granularity; each holds a
    [total] mapping from bucket label to count and, possibly, a
    [by_endpoint] mapping from API key to model name to bucket label to
    count. *)

Record Granularity := {
  total : gmap string Z;
  by_endpoint : option (gmap string (gmap string (gmap string Z)))
}.

Record ApiCallStats := {
  last_24h : Granularity;
  hourly : Granularity;
  minute : Granularity
}.

(** The object stored under ['response'] in a cache entry; [model] is its
    attribute of that name, [None] standing for Python's [None]. *)
Record Response := { model : option string }.

(** An entry of [response_cache_manager.cache]; a field is [None] when the
    entry has no such key. *)
Record CacheEntry := {
  response : option Response;
  expiry_time : option pynum
}.

(** An [asyncio] task of [active_requests_manager.active_requests]. *)
Record Task := { done : bool }.

Record World := {
  api_call_stats : ApiCallStats;
  api_keys : list string;
  cache : gmap string CacheEntry;
  active_requests : gmap string Task;
  time_calls : nat
}.

(** A naive [datetime], as the number of microseconds since the first
    instant of year 1. *)
Definition datetime := Z.

(** [timedelta(hours=h, minutes=m)] in microseconds *)
Definition timedelta (hours minutes : Z) : Z :=
  (hours * 3600 + minutes * 60) * 1000000.

(** ** What the router imports

    None of these is defined in [dashboard.py]. [time_time n] is the value
    of the [n]-th call of [time.time()] since the process started, and
    [datetime_now] the value of [datetime.now()] when the handler reads
    it. The three cleaning functions are methods of, or take as argument,
    the one object they clean. *)

Class Externals := {
  API_KEY_DAILY_LIMIT : Z;
  strptime : string → string → Result datetime;
  datetime_now : datetime;
  time_time : nat → pynum;
  clean_expired_stats : ApiCallStats → ApiCallStats;
  clean_expired : gmap string CacheEntry → gmap string CacheEntry;
  clean_completed : gmap string Task → gmap string Task;
  verify_password : string → Result bool
}.

(** ** The handler monad *)

Definition M (A : Type) : Type := World → Result A * World.

#[global] Instance M_ret : MRet M := λ A a w, (Ok a, w).
#[global] Instance M_bind : MBind M := λ A B f m w,
  match m w with
  | (Ok a, w') => f a w'
  | (Raise e, w') => (Raise e, w')
  end.

Definition raise {A} (e : exn) : M A := λ w, (Raise e, w).
Definition lift {A} (r : Result A) : M A := λ w, (r, w).
Definition gets {A} (f : World → A) : M A := λ w, (Ok (f w), w).
Definition modify (f : World → World) : M unit := λ w, (Ok tt, f w).

(** [try: body / except Exception as e: handler(e)] *)
Definition try_except {A} (body : M A) (handler : exn → M A) : M A := λ w,
  match body w with
  | (Ok a, w') => (Ok a, w')
  | (Raise e, w') => handler e w'
  end.

Definition set_api_call_stats (s : ApiCallStats) (w : World) : World :=
  {| api_call_stats := s; api_keys := api_keys w; cache := cache w;
     active_requests := active_requests w; time_calls := time_calls w |}.

Definition set_cache (c : gmap string CacheEntry) (w : World) : World :=
  {| api_call_stats := api_call_stats w; api_keys := api_keys w; cache := c;
     active_requests := active_requests w; time_calls := time_calls w |}.

Definition set_active_requests (a : gmap string Task) (w : World) : World :=
  {| api_call_stats := api_call_stats w; api_keys := api_keys w; cache := cache w;
     active_requests := a; time_calls := time_calls w |}.

Definition set_time_calls (n : nat) (w : World) : World :=
  {| api_call_stats := api_call_stats w; api_keys := api_keys w; cache := cache w;
     active_requests := active_requests w; time_calls := n |}.

(** ** Values exchanged with the client *)

(** A decoded JSON request body. *)
#[warnings="-register-all"]
Inductive json :=
  | JNull
  | JBool (b : bool)
  | JInt (z : Z)
  | JFloat (x : spec_float)
  | JStr (s : string)
  | JList (l : list json)
  | JDict (d : gmap string json).

(** Truth value of an object, as tested by [not] and [if]. *)
Definition py_truthy (v : json) : bool :=
  match v with
  | JNull => false
  | JBool b => b
  | JInt z => negb (z =? 0)
  | JFloat (S754_zero _) => false
  | JFloat _ => true
  | JStr s => negb (String.eqb s "")
  | JList l => negb (bool_decide (l = []))
  | JDict d => negb (bool_decide (d = ∅))
  end.

Module Out.

(** One element of ["api_key_stats"]. *)
Record KeyStats := {
  api_key : string;
  calls_24h : Z;
  limit : Z;
  usage_percent : pynum;
  model_stats : gmap string Z
}.

(** The dictionary returned by [get_dashboard_data]. The entries that copy
    a configuration constant, the version descriptor or the log lines into
    the answer are left out. *)
Record DashboardData := {
  key_count : Z;
  last_24h_calls : Z;
  hourly_calls : Z;
  minute_calls : Z;
  api_key_stats : list KeyStats;
  cache_entries : Z;
  valid_cache : Z;
  expired_cache : Z;
  cache_by_model : gmap string Z;
  active_count : Z;
  active_done : Z;
  active_pending : Z
}.

(** The dictionary returned by [reset_stats]. *)
Record ResetReply := {
  status : string;
  message : string
}.

End Out.

(** ** [get_dashboard_data] *)

Section GetDashboardData.
Context `{Externals}.

(** The two loops over [total.items()] of lines 66-86: a bucket is added
    when its label parses to a time not before [since]; a [ValueError]
    raised by [strptime] is caught and the bucket skipped, any other
    exception leaves the loop. *)
Fixpoint calls_since (format : string) (since : datetime)
    (items : list (string * Z)) (calls : Z) : Result Z :=
  match items with
  | [] => Ok calls
  | (bucket_key, count) :: rest =>
      match strptime bucket_key format with
      | Ok bucket_time =>
          calls_since format since rest
            (if bucket_time >=? since then calls + count else calls)
      | Raise (ValueError _) => calls_since format since rest calls
      | Raise e => Raise e
      end
  end.

Definition last_24h_calls (stats : ApiCallStats) : Z :=
  py_sum (dict_values (total (last_24h stats))).

Definition hourly_calls (now : datetime) (stats : ApiCallStats) : Result Z :=
  let one_hour_ago := now - timedelta 1 0 in
  calls_since "%Y-%m-%d %H:00" one_hour_ago (dict_items (total (hourly stats))) 0.

Definition minute_calls (now : datetime) (stats : ApiCallStats) : Result Z :=
  let one_minute_ago := now - timedelta 0 1 in
  calls_since "%Y-%m-%d %H:%M" one_minute_ago (dict_items (total (minute stats))) 0.

(** The loop over the models of one key, lines 100-103. *)
Fixpoint count_models (items : list (string * gmap string Z))
    (calls_24h : Z) (model_stats : gmap string Z) : Z * gmap string Z :=
  match items with
  | [] => (calls_24h, model_stats)
  | (model, model_data) :: rest =>
      let model_calls := py_sum (dict_values model_data) in
      count_models rest (calls_24h + model_calls) (<[model := model_calls]> model_stats)
  end.

(** Lines 95-103: [calls_24h] and [model_stats] of one key. *)
Definition key_calls (stats : ApiCallStats) (api_key : string) : Z * gmap string Z :=
  match by_endpoint (last_24h stats) with
  | Some keys =>
      match keys !! api_key with
      | Some models => count_models (dict_items models) 0 ∅
      | None => (0, ∅)
      end
  | None => (0, ∅)
  end.

(** Line 106 *)
Definition usage_percent (calls_24h : Z) : Result pynum :=
  if API_KEY_DAILY_LIMIT >? 0 then
    ratio ← py_int_truediv calls_24h API_KEY_DAILY_LIMIT;
    percent ← py_float_mul_int ratio 100;
    Ok (PyFloat percent)
  else Ok (PyInt 0).

(** The body of the loop over the keys, lines 91-115. *)
Definition key_stats (stats : ApiCallStats) (api_key : string) : Result Out.KeyStats :=
  let api_key_id := py_slice_to 8 api_key in
  let '(calls_24h, model_stats) := key_calls stats api_key in
  percent ← usage_percent calls_24h;
  rounded ← py_round percent 2;
  Ok {| Out.api_key := api_key_id;
        Out.calls_24h := calls_24h;
        Out.limit := API_KEY_DAILY_LIMIT;
        Out.usage_percent := rounded;
        Out.model_stats := model_stats |}.

(** Lines 89-118: one record per key, in the order of the keys, then the
    sort by decreasing usage. *)
Definition api_key_stats (stats : ApiCallStats) (keys : list string) :
    Result (list Out.KeyStats) :=
  records ← mapM (key_stats stats) keys;
  Ok (py_sort_reverse Out.usage_percent records).

(** [time.time()] *)
Definition time_now : M pynum := λ w,
  (Ok (time_time (time_calls w)), set_time_calls (S (time_calls w)) w).

(** [data.get('expiry_time', 0)] *)
Definition get_expiry_time (data : CacheEntry) : pynum :=
  default (PyInt 0) (expiry_time data).

(** Lines 125-126: the sum of a 1 for every entry that has not expired when
    it is looked at. *)
Fixpoint valid_cache_loop (items : list (string * CacheEntry)) (acc : Z) : M Z :=
  match items with
  | [] => mret acc
  | (_, data) :: rest =>
      now ← time_now;
      valid_cache_loop rest (if py_lt now (get_expiry_time data) then acc + 1 else acc)
  end.

Definition valid_cache : M Z :=
  c ← gets cache; valid_cache_loop (dict_items c) 0.

(** [if model:] on the [model] attribute of a response *)
Definition model_truthy (m : option string) : option string :=
  match m with
  | Some name => if String.eqb name "" then None else Some name
  | None => None
  end.

(** Lines 135-138 *)
Definition count_model (model : string) (cache_by_model : gmap string Z) : gmap string Z :=
  match cache_by_model !! model with
  | Some n => <[model := n + 1]> cache_by_model
  | None => <[model := 1]> cache_by_model
  end.

(** Lines 130-138; an entry without ['response'] makes the attribute
    access fail. *)
Fixpoint cache_by_model_loop (items : list (string * CacheEntry))
    (cache_by_model : gmap string Z) : M (gmap string Z) :=
  match items with
  | [] => mret cache_by_model
  | (_, cache_data) :: rest =>
      now ← time_now;
      if py_lt now (get_expiry_time cache_data) then
        match response cache_data with
        | Some r =>
            match model_truthy (model r) with
            | Some name => cache_by_model_loop rest (count_model name cache_by_model)
            | None => cache_by_model_loop rest cache_by_model
            end
        | None => raise (AttributeError "'dict' object has no attribute 'model'")
        end
      else cache_by_model_loop rest cache_by_model
  end.

Definition cache_by_model : M (gmap string Z) :=
  c ← gets cache; cache_by_model_loop (dict_items c) ∅.

(** Lines 144-146 *)
Definition active_count (tasks : gmap string Task) : Z := py_len tasks.

Definition active_done (tasks : gmap string Task) : Z :=
  py_sum ((λ _, 1) <$> filter (λ task, done task = true) (dict_values tasks)).

Definition active_pending (tasks : gmap string Task) : Z :=
  active_count tasks - active_done tasks.

Definition get_dashboard_data : M Out.DashboardData :=
  modify (λ w, set_api_call_stats (clean_expired_stats (api_call_stats w)) w);;
  modify (λ w, set_cache (clean_expired (cache w)) w);;
  modify (λ w, set_active_requests (clean_completed (active_requests w)) w);;
  let now := datetime_now in
  stats ← gets api_call_stats;
  hourly ← lift (hourly_calls now stats);
  minutely ← lift (minute_calls now stats);
  keys ← gets api_keys;
  key_records ← lift (api_key_stats stats keys);
  total_cache ← gets (λ w, py_len (cache w));
  valid ← valid_cache;
  by_model ← cache_by_model;
  tasks ← gets active_requests;
  mret {| Out.key_count := Z.of_nat (length keys);
          Out.last_24h_calls := last_24h_calls stats;
          Out.hourly_calls := hourly;
          Out.minute_calls := minutely;
          Out.api_key_stats := key_records;
          Out.cache_entries := total_cache;
          Out.valid_cache := valid;
          Out.expired_cache := total_cache - valid;
          Out.cache_by_model := by_model;
          Out.active_count := active_count tasks;
          Out.active_done := active_done tasks;
          Out.active_pending := active_pending tasks |}.

End GetDashboardData.

(** ** [reset_stats] *)

Definition empty_granularity : Granularity :=
  {| total := ∅; by_endpoint := Some ∅ |}.

Definition empty_stats : ApiCallStats :=
  {| last_24h := empty_granularity;
     hourly := empty_granularity;
     minute := empty_granularity |}.

(** Modelled from the spec: [api_call_stats_clean] of
    [app/utils/maintenance.py], which is not part of the sources at hand.
    The specification says of it that it "atomically clears all three
    granularities" of the statistics and "does not touch TTLResponseCache
    or ActiveRequestTracker". *)
Definition api_call_stats_clean : M unit :=
  modify (set_api_call_stats empty_stats).

Section ResetStats.
Context `{Externals}.

(** [password_data.get("password")] *)
Definition get_password (d : gmap string json) : json :=
  default JNull (d !! "password").

(** Lines 204-220, the body of the [try]. *)
Definition reset_stats_try (password_data : json) : M Out.ResetReply :=
  match password_data with
  | JDict d =>
      let password := get_password d in
      if negb (py_truthy password) then
        raise (HTTPException 400 "缺少密码参数")
      else
        match password with
        | JStr s =>
            verified ← lift (verify_password s);
            if negb verified then raise (HTTPException 401 "密码错误")
            else
              api_call_stats_clean;;
              mret {| Out.status := "success";
                      Out.message := "API调用统计数据已重置" |}
        | _ => raise (HTTPException 422 "密码参数类型错误：应为字符串")
        end
  | _ => raise (HTTPException 422 "请求体格式错误：应为JSON对象")
  end.

(** Lines 221-224: an [HTTPException] is raised again, any other exception
    becomes an [HTTPException] with status 500 that carries [str(e)]. *)
Definition reset_stats_except (e : exn) : M Out.ResetReply :=
  match e with
  | HTTPException _ _ => raise e
  | ValueError message
  | TypeError message
  | AttributeError message
  | ZeroDivisionError message
  | OverflowError message =>
      raise (HTTPException 500 ("重置失败：" +:+ message))
  end.

Definition reset_stats (password_data : json) : M Out.ResetReply :=
  try_except (reset_stats_try password_data) reset_stats_except.

End ResetStats.

(** ** Notions used to state the properties *)

(** A number other than NaN. *)
Definition ordered (v : pynum) : Prop := py_val v ≠ VNaN.

Definition not_nan (x : spec_float) : Prop := x ≠ S754_nan.

(** The sum of the counts held by a mapping. *)
Definition sum_counts (d : gmap string Z) : Z :=
  map_fold (λ _ count acc, count + acc) 0 d.

Section Notions.
Context `{Externals}.

(** The label of a bucket parses, and to a time not before [since]. *)
Definition in_window (format : string) (since : datetime) (bucket_key : string) : bool :=
  match strptime bucket_key format with
  | Ok bucket_time => since <=? bucket_time
  | Raise _ => false
  end.

(** [query_total] of the specification: the sum of the buckets of [total]
    whose parsed bucket time is at least [since]. *)
Definition query_total (format : string) (since : datetime) (total : gmap string Z) : Z :=
  sum_counts (filter (λ bucket, in_window format since bucket.1 = true) total).

(** [query_by_key] of the specification at granularity [last_24h]: the
    mapping from model to buckets of a key, empty when there is none. *)
Definition query_by_key (stats : ApiCallStats) (api_key : string) :
    gmap string (gmap string Z) :=
  default ∅ (keys ← by_endpoint (last_24h stats); keys !! api_key).

(** The number of calls of a model with a key in the 24-hour window. *)
Definition model_calls (stats : ApiCallStats) (api_key model : string) : Z :=
  default 0 (sum_counts <$> (query_by_key stats api_key !! model)).

(** The objects as the three cleaning calls at the head of
    [get_dashboard_data] leave them. *)
Definition cleaned (w : World) : World :=
  set_active_requests (clean_completed (active_requests w))
    (set_cache (clean_expired (cache w))
       (set_api_call_stats (clean_expired_stats (api_call_stats w)) w)).

(** The statement of the specification on models without calls. *)
Definition zero_models_omitted (stats : ApiCallStats) (api_key : string) : Prop :=
  ∀ model, model_calls stats api_key model = 0 →
    (key_calls stats api_key).2 !! model = None.

(** The record of a key never shows the key in full. *)
Definition key_never_in_full (stats : ApiCallStats) (api_key : string) : Prop :=
  ∀ record, key_stats stats api_key = Ok record → Out.api_key record ≠ api_key.

End Notions.

(** A cache entry is still valid at [now]: [now < expiry_time]. *)
Definition still_valid (now : pynum) (data : CacheEntry) : Prop :=
  py_lt now (get_expiry_time data) = true.

#[global] Instance still_valid_dec now data : Decision (still_valid now data) :=
  decide (py_lt now (get_expiry_time data) = true).

(** The model a cache entry is counted under, if any. *)
Definition entry_model (data : CacheEntry) : option string :=
  r ← response data; model_truthy (model r).



Section ResetNotions.
Context `{Externals}.

(** The password of a request body, when there is one and it is a string. *)
Definition supplied_password (password_data : json) : option string :=
  match password_data with
  | JDict d =>
      match d !! "password" with
      | Some (JStr s) => Some s
      | _ => None
      end
  | _ => None
  end.

Definition verification_succeeds (password_data : json) : Prop :=
  ∃ s, supplied_password password_data = Some s ∧ verify_password s = Ok true.

(** The password is a string, is not empty, and is verified. *)
Definition password_accepted (password_data : json) : Prop :=
  ∃ s, supplied_password password_data = Some s ∧ s ≠ "" ∧ verify_password s = Ok true.

End ResetNotions.

Definition reset_done : Out.ResetReply :=
  {| Out.status := "success"; Out.message := "API调用统计数据已重置" |}.

(** The handler answers with an HTTP error. *)
Definition is_rejection {A} (r : Result A) : Prop :=
  ∃ status_code detail, r = Raise (HTTPException status_code detail).

(** [n] is an integer nearest to [m * 2^e * 100]. *)
Definition nearest_hundredths (m : positive) (e : Z) (n : Z) : Prop :=
  0 ≤ n ∧
  2 * Z.abs (n * 2 ^ Z.max 0 (- e) - Zpos m * 2 ^ Z.max 0 e * 100) ≤ 2 ^ Z.max 0 (- e).

(** The double nearest to [n / 100], with the sign [s]. *)
Definition hundredths_to_float (s : bool) (n : Z) : spec_float :=
  match n with
  | Zpos p => SFdiv prec emax (S754_finite s p 0) (S754_finite false 100 0)
  | _ => S754_zero s
  end.

(** [rounded] is [percent] rounded to two decimal places. *)
Definition rounded_to_2_places (percent rounded : pynum) : Prop :=
  match percent with
  | PyInt z => rounded = PyInt z
  | PyFloat (S754_finite s m e) =>
      ∃ n, nearest_hundredths m e n ∧ rounded = PyFloat (hundredths_to_float s n)
  | PyFloat x => rounded = PyFloat x
  end.

(** ** A small installation, used for examples

    The clock stands at 2024-05-01 10:30:00, the daily limit is 100 calls
    per key and the password is ["secret"]. *)

Module Demo.

Definition labels : gmap string datetime :=
  list_to_map [
    ("2024-05-01 10:00", 63850154400000000);
    ("2024-05-01 09:00", 63850150800000000);
    ("2024-05-01 10:30", 63850156200000000);
    ("2024-05-01 10:29", 63850156140000000);
    ("2024-05-01 10:12", 63850155120000000)
  ]%string.

(** Parses the labels above; a label with minutes does not match the
    hourly format. *)
Definition parse (s format : string) : Result datetime :=
  match labels !! s with
  | Some t =>
      if String.eqb format "%Y-%m-%d %H:00" && negb (t mod 3600000000 =? 0)
      then Raise (ValueError "unconverted data remains")
      else Ok t
  | None => Raise (ValueError "time data does not match format")
  end.

(** 1714559400.25 *)
Definition clock : pynum := PyFloat (S754_finite false 7191383350706176 (-22)).

#[global] Instance externals : Externals := {|
  API_KEY_DAILY_LIMIT := 100;
  strptime := parse;
  datetime_now := 63850156200000000;
  time_time := λ _, clock;
  clean_expired_stats := id;
  clean_expired := id;
  clean_completed := id;
  verify_password := λ s, Ok (String.eqb s "secret")
|}.

Definition key_1 : string := "AIzaSyA-first-key-0001".
Definition key_2 : string := "AIzaSyB-second-key-0002".
Definition key_3 : string := "AIzaSyC-third-key-0003".
Definition key_4 : string := "AIzaSyD-fourth-key-0004".

Definition stats : ApiCallStats := {|
  last_24h := {|
    total := {[ "2024-05-01 10:00" := 13; "2024-05-01 09:00" := 4 ]};
    by_endpoint := Some {[
      key_1 := {[ "m1" := {[ "2024-05-01 10:00" := 2; "2024-05-01 09:00" := 1 ]};
                  "m2" := {[ "2024-05-01 10:00" := 2 ]} ]};
      key_2 := {[ "m1" := {[ "2024-05-01 10:00" := 7 ]} ]};
      key_4 := {[ "m2" := {[ "2024-05-01 10:00" := 2; "2024-05-01 09:00" := 3 ]} ]}
    ]}
  |};
  hourly := {|
    total := {[ "2024-05-01 10:00" := 4; "2024-05-01 09:00" := 7; "legacy" := 9 ]};
    by_endpoint := Some ∅
  |};
  minute := {|
    total := {[ "2024-05-01 10:30" := 2; "2024-05-01 10:29" := 1;
                "2024-05-01 10:12" := 3; "" := 5 ]};
    by_endpoint := Some ∅
  |}
|}.

Definition entry (name : option string) (expiry : spec_float) : CacheEntry :=
  {| response := Some {| model := name |}; expiry_time := Some (PyFloat expiry) |}.

(** Two entries expire at 1714559460.0, one expired at 1714559000.5. *)
Definition world : World := {|
  api_call_stats := stats;
  api_keys := [key_1; key_2; key_3; key_4];
  cache := {[
    "fp-1" := entry (Some "gemini-pro") (S754_finite false 7191383601315840 (-22));
    "fp-2" := entry (Some "gemini-pro") (S754_finite false 7191381674033152 (-22));
    "fp-3" := entry (Some "gemini-flash") (S754_finite false 7191383601315840 (-22));
    "fp-4" := entry None (S754_finite false 7191383601315840 (-22))
  ]};
  active_requests := {[ "task-1" := {| done := false |}; "task-2" := {| done := true |} ]};
  time_calls := 0
|}.

(** The statistics after every bucket of the one model of [key_1] has been
    dropped. *)
Definition idle_stats : ApiCallStats := {|
  last_24h := {| total := ∅; by_endpoint := Some {[ key_1 := {[ "m1" := ∅ ]} ]} |};
  hourly := empty_granularity;
  minute := empty_granularity
|}.

Definition record (api_key : string) (calls : Z) (percent : Z)
    (models : gmap string Z) : Out.KeyStats :=
  {| Out.api_key := py_slice_to 8 api_key;
     Out.calls_24h := calls;
     Out.limit := 100;
     Out.usage_percent := PyFloat (hundredths_to_float false percent);
     Out.model_stats := models |}.

Definition ranked : list Out.KeyStats := [
  record key_2 7 700 {[ "m1" := 7 ]};
  record key_1 5 500 {[ "m1" := 3; "m2" := 2 ]};
  record key_4 5 500 {[ "m2" := 5 ]};
  record key_3 0 0 ∅
].

End Demo.

(** ** Notions used for the further properties *)

(** A password entry that [not password] takes for missing: no entry, or
    one of [null], [false], [0], [0.0], [""], [[]] and [{}]. *)
Definition password_missing (d : gmap string json) : Prop :=
  match d !! "password" with
  | None
  | Some JNull
  | Some (JBool false)
  | Some (JInt 0)
  | Some (JFloat (S754_zero _))
  | Some (JStr "")
  | Some (JList []) => True
  | Some (JDict fields) => fields = ∅
  | Some _ => False
  end.

(** A password entry that is present, not taken for missing, and not a
    string. *)
Definition password_ill_typed (d : gmap string json) : Prop :=
  ¬ password_missing d ∧ ∀ s, d !! "password" ≠ Some (JStr s).

(** [e] is an exception of a built-in class raised with [message]. *)
Definition builtin_exception (e : exn) (message : string) : Prop :=
  e = ValueError message ∨ e = TypeError message ∨ e = AttributeError message ∨
  e = ZeroDivisionError message ∨ e = OverflowError message.

(** An installation whose verifier fails on two passwords, for examples. *)
Module Failing.

Definition verify (s : string) : Result bool :=
  if String.eqb s "boom" then Raise (ValueError "bad hash")
  else if String.eqb s "busy" then Raise (HTTPException 503 "try later")
  else Ok (String.eqb s "secret").

#[export] Instance externals : Externals := {|
  API_KEY_DAILY_LIMIT := 100;
  strptime := Demo.parse;
  datetime_now := 63850156200000000;
  time_time := λ _, Demo.clock;
  clean_expired_stats := id;
  clean_expired := id;
  clean_completed := id;
  verify_password := verify
|}.

End Failing.

(** No bucket of the key holds a negative count. *)
Definition counts_nonneg (stats : ApiCallStats) (api_key : string) : Prop :=
  ∀ model buckets bucket count,
    query_by_key stats api_key !! model = Some buckets →
    buckets !! bucket = Some count → 0 ≤ count.

(** The usage reported for a key that has no call on record. *)
Definition zero_usage `{Externals} : pynum :=
  if API_KEY_DAILY_LIMIT >? 0 then PyFloat (S754_zero false) else PyInt 0.

(** The record of a key before rounding and ranking, when the limit is not
    positive. *)
Definition unlimited_record `{Externals} (stats : ApiCallStats) (api_key : string) :
    Out.KeyStats :=
  {| Out.api_key := py_slice_to 8 api_key;
     Out.calls_24h := (key_calls stats api_key).1;
     Out.limit := API_KEY_DAILY_LIMIT;
     Out.usage_percent := PyInt 0;
     Out.model_stats := (key_calls stats api_key).2 |}.

(** A float that is not NaN and not below zero. *)
Definition float_nonneg (x : spec_float) : Prop :=
  match x with
  | S754_zero _ => True
  | S754_infinity s | S754_finite s _ _ => s = false
  | S754_nan => False
  end.

(** An installation without a daily limit, for examples. *)
Module Unlimited.

#[export] Instance externals : Externals := {|
  API_KEY_DAILY_LIMIT := 0;
  strptime := Demo.parse;
  datetime_now := 63850156200000000;
  time_time := λ _, Demo.clock;
  clean_expired_stats := id;
  clean_expired := id;
  clean_completed := id;
  verify_password := λ s, Ok (String.eqb s "secret")
|}.

End Unlimited.

(** Some label of [total] makes [strptime] raise [e]. *)
Definition raised_by_label `{Externals} (format : string) (total : gmap string Z)
    (e : exn) : Prop :=
  ∃ label, is_Some (total !! label) ∧ strptime label format = Raise e.

(** No bucket of [total] holds a negative count. *)
Definition total_nonneg (total : gmap string Z) : Prop :=
  ∀ label count, total !! label = Some count → 0 ≤ count.

(** The number of entries of [items] that have not expired at the reading
    of the clock taken for them, the first of them at reading [t]. *)
Fixpoint valid_at `{Externals} (t : nat) (items : list (string * CacheEntry)) : nat :=
  match items with
  | [] => 0
  | (_, data) :: rest =>
      (if py_lt (time_time t) (get_expiry_time data) then 1 else 0)
      + valid_at (S t) rest
  end.

(** The clock never goes backwards, and never shows a NaN. *)
Definition clock_monotone `{Externals} : Prop :=
  ∀ i j : nat, (i ≤ j)%nat → py_ge (time_time j) (time_time i) = true.

(** The entries of the cache stored for a model. *)
Definition entries_of_model (name : string) (c : gmap string CacheEntry) :
    gmap string CacheEntry :=
  filter (λ entry, entry_model entry.2 = Some name) c.

(** Two states that differ at most in the number of clock readings. *)
Definition ticks_only (w w' : World) : Prop := ∃ n, w' = set_time_calls n w.

(** * Properties *)

(** ** The order on numbers *)


Lemma Qltb_lt p q : Qltb p q = true ↔ Qlt p q.
Proof. unfold Qltb, Qlt. apply Z.ltb_lt. Qed.

Lemma Qltb_ge p q : Qltb p q = false ↔ Qle q p.
Proof. unfold Qltb, Qle. apply Z.ltb_ge. Qed.

Lemma xval_ltb_irrefl a : xval_ltb a a = false.
Proof.
  destruct a as [| |q|]; simpl; try done.
  apply Qltb_ge, Qle_refl.
Qed.

Lemma xval_ltb_asym a b : xval_ltb a b = true → xval_ltb b a = false.
Proof.
  destruct a as [| |p|], b as [| |q|]; simpl; try done.
  rewrite Qltb_lt, Qltb_ge. apply Qlt_le_weak.
Qed.

Lemma xval_ltb_trans a b c :
  xval_ltb a b = true → xval_ltb b c = true → xval_ltb a c = true.
Proof.
  destruct a as [| |p|], b as [| |q|], c as [| |r|]; simpl; try done.
  rewrite !Qltb_lt. apply Qlt_trans.
Qed.

(** On values other than NaN, [<] is the complement of a total preorder. *)
Lemma xval_ltb_neg_trans a b c :
  a ≠ VNaN → b ≠ VNaN → c ≠ VNaN →
  xval_ltb b a = false → xval_ltb c b = false → xval_ltb c a = false.
Proof.
  destruct a as [| |p|], b as [| |q|], c as [| |r|]; simpl; try done.
  rewrite !Qltb_ge. intros _ _ _ Hpq Hqr. by apply Qle_trans with q.
Qed.

Lemma py_ge_spec a b :
  py_ge a b = true ↔ ordered a ∧ ordered b ∧ py_lt a b = false.
Proof.
  unfold py_ge, py_lt, ordered.
  destruct (py_val a) as [| |p|], (py_val b) as [| |q|]; simpl;
    try destruct (Qltb p q); simpl; intuition congruence.
Qed.

Lemma py_lt_asym a b : py_lt a b = true → py_lt b a = false.
Proof. apply xval_ltb_asym. Qed.

Lemma py_lt_ordered a b : py_lt a b = true → ordered a ∧ ordered b.
Proof.
  unfold py_lt, ordered.
  by destruct (py_val a) as [| |p|], (py_val b) as [| |q|].
Qed.

Lemma py_ge_refl a : ordered a → py_ge a a = true.
Proof. intros. apply py_ge_spec. repeat split; try done. apply xval_ltb_irrefl. Qed.

Lemma py_ge_trans a b c : py_ge a b = true → py_ge b c = true → py_ge a c = true.
Proof.
  rewrite !py_ge_spec. unfold py_lt. intros (?&?&?) (?&?&?).
  repeat split; try done. by apply xval_ltb_neg_trans with (py_val b).
Qed.

Lemma py_ge_total a b : ordered a → ordered b → py_ge a b = true ∨ py_ge b a = true.
Proof.
  intros Ha Hb. destruct (py_lt a b) eqn:Hlt.
  - right. apply py_ge_spec. eauto using py_lt_asym.
  - left. by apply py_ge_spec.
Qed.

Lemma py_eq_spec a b : py_eq a b = true ↔ py_ge a b = true ∧ py_ge b a = true.
Proof. unfold py_eq. by rewrite andb_true_iff. Qed.

(** Two numbers equal to a third one are not apart. *)
Lemma py_eq_not_lt a b v :
  py_eq a v = true → py_eq b v = true → py_lt a b = false.
Proof.
  rewrite !py_eq_spec. intros [Hav Hva] [Hbv Hvb].
  by apply (py_ge_trans a v b), py_ge_spec in Hav as (_&_&?).
Qed.

(** ** [list.sort] with [reverse=True] *)

Section SortFacts.
Context {A : Type} (key : A → pynum).

Implicit Types (x : A) (l : list A).

Local Abbreviation ge_key := (λ a b : A, py_ge (key a) (key b) = true).
Local Abbreviation le_key := (λ a b : A, py_ge (key b) (key a) = true).

#[local] Instance ge_key_trans : Transitive ge_key.
Proof. intros a b c. apply py_ge_trans. Qed.

#[local] Instance le_key_trans : Transitive le_key.
Proof. intros a b c ??. by apply py_ge_trans with (key b). Qed.

Lemma insert_before_perm x l : insert_before key x l ≡ₚ x :: l.
Proof.
  induction l as [|y l IH]; simpl; [done|].
  destruct (py_lt (key y) (key x)); [|done].
  rewrite IH. apply Permutation_swap.
Qed.

Lemma stable_sort_perm l : stable_sort key l ≡ₚ l.
Proof.
  induction l as [|x l IH]; simpl; [done|].
  by rewrite insert_before_perm, IH.
Qed.

Lemma py_sort_reverse_perm l : py_sort_reverse key l ≡ₚ l.
Proof.
  unfold py_sort_reverse.
  by rewrite reverse_Permutation, stable_sort_perm, reverse_Permutation.
Qed.

Lemma insert_before_hd x y l :
  le_key y x → HdRel le_key y l → HdRel le_key y (insert_before key x l).
Proof.
  intros Hyx Hl. destruct l as [|z l]; simpl; [by constructor|].
  destruct (py_lt (key z) (key x)); constructor; [|done].
  by inversion Hl.
Qed.

Lemma insert_before_sorted x l :
  ordered (key x) → Forall (λ a, ordered (key a)) l →
  Sorted le_key l → Sorted le_key (insert_before key x l).
Proof.
  intros Hx. induction l as [|y l IH]; intros Hl Hs; simpl.
  { by repeat constructor. }
  apply Forall_cons in Hl as [Hy Hl]. apply Sorted_inv in Hs as [Hs Hhd].
  destruct (py_lt (key y) (key x)) eqn:Hlt.
  - constructor; [by apply IH|].
    apply insert_before_hd; [|done].
    apply py_ge_spec. eauto using py_lt_asym.
  - constructor; [by constructor|].
    constructor. by apply py_ge_spec.
Qed.

Lemma stable_sort_sorted l :
  Forall (λ a, ordered (key a)) l → Sorted le_key (stable_sort key l).
Proof.
  induction l as [|x l IH]; intros Hl; simpl; [constructor|].
  apply Forall_cons in Hl as [Hx Hl].
  apply insert_before_sorted; [done| |by apply IH].
  by rewrite stable_sort_perm.
Qed.

(** Every record is followed only by records of at most its key. *)
Lemma py_sort_reverse_sorted l :
  Forall (λ a, ordered (key a)) l →
  StronglySorted ge_key (py_sort_reverse key l).
Proof.
  intros Hl. apply Sorted_StronglySorted; [apply _|].
  unfold py_sort_reverse.
  apply (Sorted_reverse le_key), stable_sort_sorted.
  by rewrite reverse_Permutation.
Qed.

Lemma insert_before_filter v x l :
  filter (λ a, py_eq (key a) v = true) (insert_before key x l)
  = filter (λ a, py_eq (key a) v = true) (x :: l).
Proof.
  induction l as [|y l IH]; simpl; [done|].
  destruct (py_lt (key y) (key x)) eqn:Hlt; [|done].
  rewrite filter_cons, IH, !(filter_cons _ x), (filter_cons _ y).
  destruct (decide (py_eq (key y) v = true)) as [Hy|]; [|done].
  destruct (decide (py_eq (key x) v = true)) as [Hx|]; [|done].
  by rewrite (py_eq_not_lt _ _ v Hy Hx) in Hlt.
Qed.

Lemma stable_sort_filter v l :
  filter (λ a, py_eq (key a) v = true) (stable_sort key l)
  = filter (λ a, py_eq (key a) v = true) l.
Proof.
  induction l as [|x l IH]; simpl; [done|].
  by rewrite insert_before_filter, !filter_cons, IH.
Qed.

(** The records of any one key value come out in the order they went in. *)
Lemma py_sort_reverse_stable v l :
  filter (λ a, py_eq (key a) v = true) (py_sort_reverse key l)
  = filter (λ a, py_eq (key a) v = true) l.
Proof.
  unfold py_sort_reverse.
  by rewrite filter_reverse, stable_sort_filter, filter_reverse, reverse_involutive.
Qed.

End SortFacts.

(** ** Floats produced by the arithmetic are never NaN *)

Lemma shr_1_nonneg mrs : 0 ≤ shr_m mrs → 0 ≤ shr_m (shr_1 mrs).
Proof.
  destruct mrs as [m r s]; simpl.
  destruct m as [|[p|p|]|[p|p|]]; simpl; lia.
Qed.

Lemma iter_pos_shr_1_nonneg n mrs :
  0 ≤ shr_m mrs → 0 ≤ shr_m (SpecFloat.iter_pos shr_1 n mrs).
Proof.
  revert mrs. induction n as [n IH|n IH|]; intros mrs Hm; simpl.
  - by apply IH, IH, shr_1_nonneg.
  - by apply IH, IH.
  - by apply shr_1_nonneg.
Qed.

Lemma shr_fexp_nonneg m e l :
  0 ≤ m → 0 ≤ shr_m (shr_fexp prec emax m e l).1.
Proof.
  intros Hm. unfold shr_fexp, shr.
  assert (0 ≤ shr_m (shr_record_of_loc m l)) by by destruct l as [|[]].
  destruct (fexp _ _ _ - e); simpl; [done| |done].
  by apply iter_pos_shr_1_nonneg.
Qed.

Lemma round_nearest_even_nonneg m l : 0 ≤ m → 0 ≤ round_nearest_even m l.
Proof.
  intros. unfold round_nearest_even.
  destruct l as [|[]]; try destruct (Z.even m); lia.
Qed.

Lemma binary_round_aux_not_nan s m e l :
  0 ≤ m → binary_round_aux prec emax s m e l ≠ S754_nan.
Proof.
  intros Hm. unfold binary_round_aux.
  pose proof (shr_fexp_nonneg m e l Hm) as H1.
  destruct (shr_fexp prec emax m e l) as [mrs' e']; simpl in H1.
  pose proof (shr_fexp_nonneg _ e' loc_Exact
    (round_nearest_even_nonneg _ (loc_of_shr_record mrs') H1)) as H2.
  destruct (shr_fexp prec emax _ e' loc_Exact) as [mrs'' e'']; simpl in H2.
  destruct (shr_m mrs''); [done| |lia].
  by destruct (e'' <=? emax - prec).
Qed.

Lemma SFdiv_core_binary_nonneg m1 e1 m2 e2 :
  0 ≤ (SFdiv_core_binary prec emax (Zpos m1) e1 (Zpos m2) e2).1.1.
Proof.
  unfold SFdiv_core_binary.
  set (s := _ - _ - _). set (m' := match s with Z0 => _ | Zpos _ => _ | Zneg _ => _ end).
  assert (0 ≤ m') as Hm'.
  { unfold m'. destruct s; [lia| |lia]. apply Z.shiftl_nonneg. lia. }
  pose proof (Z_div_mod m' (Zpos m2) eq_refl) as Hdiv.
  destruct (Z.div_eucl m' (Zpos m2)) as [q r]; simpl. nia.
Qed.


Lemma SFdiv_finite_not_nan sx mx ex sy my ey :
  not_nan (SFdiv prec emax (S754_finite sx mx ex) (S754_finite sy my ey)).
Proof.
  unfold not_nan, SFdiv.
  pose proof (SFdiv_core_binary_nonneg mx ex my ey) as Hq.
  destruct (SFdiv_core_binary _ _ _ _ _ _) as [[mz ez] lz]; simpl in Hq.
  by apply binary_round_aux_not_nan.
Qed.

Lemma SFmul_finite_not_nan x sy my ey :
  not_nan x → not_nan (SFmul prec emax x (S754_finite sy my ey)).
Proof.
  unfold not_nan. destruct x as [sx|sx| |sx mx ex]; simpl; try done.
  intros _. by apply binary_round_aux_not_nan.
Qed.

Lemma py_int_truediv_not_nan a b q :
  py_int_truediv a b = Ok q → not_nan q.
Proof.
  unfold py_int_truediv. destruct (b =? 0) eqn:Hb; [done|].
  apply Z.eqb_neq in Hb.
  destruct a as [|a|a], b as [|b|b]; try done; simpl float_of_Z;
    try (simpl; intros [= <-]; done);
    match goal with
    | |- context [SFdiv prec emax (S754_finite ?sx ?mx ?ex) (S754_finite ?sy ?my ?ey)] =>
        pose proof (SFdiv_finite_not_nan sx mx ex sy my ey) as Hn;
        destruct (SFdiv prec emax (S754_finite sx mx ex) (S754_finite sy my ey));
        try done; by intros [= <-]
    end.
Qed.

Lemma py_float_of_int_100 : py_float_of_int 100 = Ok (S754_finite false 7036874417766400 (-46)).
Proof. reflexivity. Qed.

Lemma py_float_mul_int_100_not_nan x p :
  not_nan x → py_float_mul_int x 100 = Ok p → not_nan p.
Proof.
  unfold py_float_mul_int. rewrite py_float_of_int_100. simpl.
  intros Hx [= <-]. by apply SFmul_finite_not_nan.
Qed.

Lemma py_float_round_2_not_nan x r :
  not_nan x → py_float_round x 2 = Ok r → not_nan r.
Proof.
  unfold py_float_round. destruct x as [s|s| |s m e]; try by intros ? [= <-].
  intros _. destruct (scaled_digits m e 2) as [|n|n]; try by intros [= <-].
  change (float_of_Z (10 ^ 2)) with (S754_finite false 100 0).
  pose proof (SFdiv_finite_not_nan s n 0 false 100 0) as Hn.
  destruct (SFdiv _ _ _ _); try done; by intros [= <-].
Qed.

Lemma not_nan_ordered x : not_nan x → ordered (PyFloat x).
Proof. unfold not_nan, ordered. by destruct x as [[]|[]| |[] m e]. Qed.

(** ** Sums *)

Lemma fold_left_add_acc (xs : list Z) (acc : Z) :
  fold_left Z.add xs acc = acc + foldr Z.add 0 xs.
Proof.
  revert acc. induction xs as [|x xs IH]; intros acc; simpl; [lia|].
  rewrite IH. lia.
Qed.

Lemma py_sum_foldr (xs : list Z) : py_sum xs = foldr Z.add 0 xs.
Proof. unfold py_sum. rewrite fold_left_add_acc. lia. Qed.

Lemma foldr_add_perm (xs ys : list Z) :
  xs ≡ₚ ys → foldr Z.add 0 xs = foldr Z.add 0 ys.
Proof. induction 1; simpl; lia. Qed.

Lemma sum_counts_foldr (d : gmap string Z) :
  sum_counts d = foldr Z.add 0 (map_to_list d).*2.
Proof.
  unfold sum_counts. rewrite map_fold_foldr.
  induction (map_to_list d) as [|[k v] l IH]; simpl; [done|]. by rewrite IH.
Qed.

Lemma py_sum_values (d : gmap string Z) : py_sum (dict_values d) = sum_counts d.
Proof. unfold dict_values. by rewrite py_sum_foldr, sum_counts_foldr. Qed.

Lemma sum_counts_empty : sum_counts ∅ = 0.
Proof. unfold sum_counts. by rewrite map_fold_empty. Qed.

Lemma map_to_list_filter {V} (P : string * V → Prop) `{!∀ x, Decision (P x)}
    (m : gmap string V) :
  map_to_list (filter P m) ≡ₚ filter P (map_to_list m).
Proof.
  apply NoDup_Permutation.
  - apply NoDup_map_to_list.
  - apply NoDup_filter, NoDup_map_to_list.
  - intros [k v]. rewrite list_elem_of_filter, !elem_of_map_to_list.
    rewrite map_lookup_filter_Some. tauto.
Qed.

(** ** The totals of the last hour and the last minute *)

Section WindowTotals.
Context `{Externals}.

Hypothesis strptime_raises :
  ∀ s format e, strptime s format = Raise e → is_ValueError e = true.

Lemma calls_since_filter format since items calls :
  calls_since format since items calls
  = Ok (calls + foldr Z.add 0
          (filter (λ bucket, in_window format since bucket.1 = true) items).*2).
Proof.
  revert calls. induction items as [|[bucket_key count] items IH]; intros calls; simpl.
  { f_equal. lia. }
  rewrite filter_cons. simpl.
  pose proof (eq_refl (in_window format since bucket_key)) as Hwin.
  unfold in_window at 2 in Hwin.
  destruct (strptime bucket_key format) as [bucket_time|e] eqn:Hparse.
  - rewrite IH, Z.geb_leb, <-Hwin.
    destruct (in_window format since bucket_key).
    + rewrite decide_True by done. simpl. by rewrite Z.add_assoc.
    + by rewrite decide_False by done.
  - pose proof (strptime_raises _ _ _ Hparse) as He. destruct e; try done.
    rewrite IH. by rewrite decide_False by (by rewrite Hwin).
Qed.

Lemma calls_since_query_total format since total :
  calls_since format since (dict_items total) 0 = Ok (query_total format since total).
Proof.
  rewrite calls_since_filter. f_equal. unfold query_total, dict_items.
  rewrite sum_counts_foldr, Z.add_0_l.
  apply foldr_add_perm. by rewrite map_to_list_filter.
Qed.

End WindowTotals.

(** ** The calls of one key *)

Lemma count_models_calls items calls stats :
  (count_models items calls stats).1
  = calls + foldr Z.add 0 ((λ item, sum_counts item.2) <$> items).
Proof.
  revert calls stats. induction items as [|[name data] items IH];
    intros calls stats; simpl; [lia|].
  rewrite IH, py_sum_values. simpl. by rewrite Z.add_assoc.
Qed.

Lemma count_models_lookup items calls stats name :
  NoDup items.*1 →
  (count_models items calls stats).2 !! name
  = match (list_to_map items : gmap string (gmap string Z)) !! name with
    | Some data => Some (sum_counts data)
    | None => stats !! name
    end.
Proof.
  revert calls stats. induction items as [|[name' data] items IH];
    intros calls stats Hdup; simpl; [done|].
  apply NoDup_cons in Hdup as [Hfresh Hdup].
  rewrite IH by done. destruct (decide (name' = name)) as [->|Hne].
  - rewrite lookup_insert_eq. simpl in Hfresh.
    apply (not_elem_of_list_to_map_1 (M:=gmap string)) in Hfresh. rewrite Hfresh.
    by rewrite lookup_insert_eq, py_sum_values.
  - by rewrite !lookup_insert_ne by done.
Qed.

Lemma count_models_dict (models : gmap string (gmap string Z)) :
  count_models (dict_items models) 0 ∅
  = (sum_counts (sum_counts <$> models), sum_counts <$> models).
Proof.
  apply injective_projections; simpl.
  - rewrite count_models_calls, sum_counts_foldr, map_to_list_fmap.
    unfold dict_items. rewrite Z.add_0_l. f_equal.
    rewrite <-list_fmap_compose. by apply list_fmap_ext; intros ? [].
  - apply map_eq; intros name.
    rewrite count_models_lookup by apply NoDup_fst_map_to_list.
    unfold dict_items. rewrite list_to_map_to_list, lookup_fmap, lookup_empty.
    by destruct (models !! name).
Qed.

Lemma key_calls_query_by_key stats api_key :
  key_calls stats api_key
  = (sum_counts (sum_counts <$> query_by_key stats api_key),
     sum_counts <$> query_by_key stats api_key).
Proof.
  unfold key_calls, query_by_key.
  destruct (by_endpoint (last_24h stats)) as [keys|]; simpl.
  - destruct (keys !! api_key) as [models|]; simpl.
    + apply count_models_dict.
    + by rewrite fmap_empty, sum_counts_empty.
  - by rewrite fmap_empty, sum_counts_empty.
Qed.

(** ** The record of one key *)

Lemma bind_Ok {A B} (r : Result A) (f : A → Result B) b :
  r ≫= f = Ok b ↔ ∃ a, r = Ok a ∧ f a = Ok b.
Proof. destruct r; simpl; split; [eauto|by intros (?&[= ->]&?)|done|by intros (?&?&?)]. Qed.

Lemma bind_Raise {A B} (r : Result A) (f : A → Result B) e :
  r ≫= f = Raise e ↔ r = Raise e ∨ ∃ a, r = Ok a ∧ f a = Raise e.
Proof.
  destruct r as [a|e']; simpl; split.
  - eauto.
  - by intros [|(?&[= ->]&?)].
  - intros [= ->]; by left.
  - by intros [[= ->]|(?&?&?)].
Qed.

Lemma mapM_Ok {A B} (f : A → Result B) l rs :
  mapM f l = Ok rs ↔ Forall2 (λ x r, f x = Ok r) l rs.
Proof.
  revert rs. induction l as [|x l IH]; intros rs; simpl.
  - split; [intros [= <-]; constructor|by inversion 1].
  - rewrite bind_Ok. split.
    + intros (r & Hr & Hrest). apply bind_Ok in Hrest as (rs' & Hrs' & [= <-]).
      constructor; [done|by apply IH].
    + inversion 1 as [|? r ? rs' Hr Hrs']; subst. exists r. split; [done|].
      apply bind_Ok. exists rs'. split; [by apply IH|done].
Qed.

Section KeyStats.
Context `{Externals}.

Lemma usage_percent_positive_limit calls_24h :
  0 < API_KEY_DAILY_LIMIT →
  usage_percent calls_24h
  = ratio ← py_int_truediv calls_24h API_KEY_DAILY_LIMIT;
    percent ← py_float_mul_int ratio 100;
    Ok (PyFloat percent).
Proof. intros Hpos. unfold usage_percent. by rewrite (proj2 (Z.gtb_gt _ _)) by lia. Qed.

Lemma usage_percent_no_limit calls_24h :
  API_KEY_DAILY_LIMIT ≤ 0 → usage_percent calls_24h = Ok (PyInt 0).
Proof.
  intros Hle. unfold usage_percent.
  destruct (API_KEY_DAILY_LIMIT >? 0) eqn:Hgt; [|done].
  apply Z.gtb_gt in Hgt. lia.
Qed.

Lemma py_float_mul_int_100 x :
  py_float_mul_int x 100 = Ok (SFmul prec emax x (S754_finite false 7036874417766400 (-46))).
Proof. unfold py_float_mul_int. by rewrite py_float_of_int_100. Qed.

Lemma py_int_truediv_raises a b e :
  py_int_truediv a b = Raise e →
  (b = 0 ∧ e = ZeroDivisionError "division by zero") ∨
  (b ≠ 0 ∧ e = OverflowError "integer division result too large for a float").
Proof.
  unfold py_int_truediv. destruct (b =? 0) eqn:Hb.
  - apply Z.eqb_eq in Hb. intros [= <-]. by left.
  - apply Z.eqb_neq in Hb. right. split; [done|].
    by destruct (SFdiv _ _ _ _); simplify_eq.
Qed.

Lemma usage_percent_raises calls_24h e :
  usage_percent calls_24h = Raise e →
  0 < API_KEY_DAILY_LIMIT ∧
  e = OverflowError "integer division result too large for a float".
Proof.
  destruct (decide (0 < API_KEY_DAILY_LIMIT)) as [Hpos|Hle].
  - rewrite usage_percent_positive_limit by done.
    intros [Hdiv|(ratio & _ & Hmul)]%bind_Raise.
    + apply py_int_truediv_raises in Hdiv as [[? _]|[_ ->]]; [lia|done].
    + by rewrite py_float_mul_int_100 in Hmul.
  - by rewrite usage_percent_no_limit by lia.
Qed.

Lemma usage_percent_ordered calls_24h percent :
  usage_percent calls_24h = Ok percent →
  percent = PyInt 0 ∨ ∃ x, percent = PyFloat x ∧ not_nan x.
Proof.
  unfold usage_percent. destruct (API_KEY_DAILY_LIMIT >? 0); [|intros [= <-]; by left].
  intros (ratio & Hratio & Hmul)%bind_Ok. apply bind_Ok in Hmul as (x & Hx & [= <-]).
  right. exists x. split; [done|].
  eauto using py_float_mul_int_100_not_nan, py_int_truediv_not_nan.
Qed.

Lemma py_round_2_ordered percent rounded :
  (percent = PyInt 0 ∨ ∃ x, percent = PyFloat x ∧ not_nan x) →
  py_round percent 2 = Ok rounded → ordered rounded.
Proof.
  intros [->|(x & -> & Hx)]; simpl.
  - by intros [= <-].
  - intros (r & Hr & [= <-])%bind_Ok.
    eauto using not_nan_ordered, py_float_round_2_not_nan.
Qed.

Lemma key_stats_Ok stats api_key record :
  key_stats stats api_key = Ok record ↔
  ∃ percent rounded,
    usage_percent (key_calls stats api_key).1 = Ok percent ∧
    py_round percent 2 = Ok rounded ∧
    record = {| Out.api_key := py_slice_to 8 api_key;
                Out.calls_24h := (key_calls stats api_key).1;
                Out.limit := API_KEY_DAILY_LIMIT;
                Out.usage_percent := rounded;
                Out.model_stats := (key_calls stats api_key).2 |}.
Proof.
  unfold key_stats. destruct (key_calls stats api_key) as [calls models]; simpl.
  rewrite bind_Ok. split.
  - intros (percent & Hp & (rounded & Hr & [= <-])%bind_Ok). eauto.
  - intros (percent & rounded & Hp & Hr & ->). exists percent. split; [done|].
    apply bind_Ok. eauto.
Qed.

Lemma key_stats_ordered stats api_key record :
  key_stats stats api_key = Ok record → ordered (Out.usage_percent record).
Proof.
  intros (percent & rounded & Hp & Hr & ->)%key_stats_Ok; simpl.
  eauto using py_round_2_ordered, usage_percent_ordered.
Qed.

End KeyStats.

(** ** The handler monad *)

Lemma M_bind_Ok {A B} (m : M A) (f : A → M B) w b w' :
  (m ≫= f) w = (Ok b, w') ↔ ∃ a w1, m w = (Ok a, w1) ∧ f a w1 = (Ok b, w').
Proof.
  unfold mbind, M_bind. destruct (m w) as [[a|e] w1]; split.
  - eauto.
  - by intros (?&?&[= -> ->]&?).
  - done.
  - by intros (?&?&?&?).
Qed.

Lemma set_time_calls_id w : set_time_calls (time_calls w) w = w.
Proof. by destruct w. Qed.

Lemma set_time_calls_twice n k w :
  set_time_calls n (set_time_calls k w) = set_time_calls n w.
Proof. done. Qed.

(** ** The statistics of the cache *)

Lemma size_filter_items {V} (P : string * V → Prop) `{!∀ x, Decision (P x)}
    (m : gmap string V) :
  size (filter P m) = length (filter P (dict_items m)).
Proof.
  unfold dict_items.
  by rewrite <-length_map_to_list, map_to_list_filter.
Qed.

Section CacheStats.
Context `{Externals}.
Variable now : pynum.
Hypothesis clock_frozen : ∀ n, time_time n = now.

Lemma time_now_frozen w :
  time_now w = (Ok now, set_time_calls (S (time_calls w)) w).
Proof. unfold time_now. by rewrite clock_frozen. Qed.



Lemma count_model_lookup name counts name' :
  count_model name counts !! name'
  = if decide (name = name') then Some (default 0 (counts !! name) + 1)
    else counts !! name'.
Proof.
  unfold count_model. destruct (counts !! name) as [n|] eqn:Hn;
    rewrite lookup_insert; by case_decide.
Qed.



End CacheStats.

(** ** The active requests *)

Lemma py_sum_ones {A} (l : list A) : py_sum ((λ _, 1) <$> l) = Z.of_nat (length l).
Proof.
  rewrite py_sum_foldr. induction l as [|x l IH]; csimpl; [done|].
  rewrite IH. lia.
Qed.

Lemma active_done_bounds tasks : 0 ≤ active_done tasks ≤ active_count tasks.
Proof.
  unfold active_done, active_count, py_len, dict_values.
  rewrite py_sum_ones. split; [lia|].
  apply inj_le. rewrite <-length_map_to_list, <-(length_fmap snd (map_to_list tasks)).
  apply length_filter.
Qed.

(** ** Rounding to two places *)

Lemma round_half_even_nearest num den :
  0 ≤ num → 0 < den →
  0 ≤ round_half_even num den ∧
  2 * Z.abs (round_half_even num den * den - num) ≤ den.
Proof.
  intros Hnum Hden. unfold round_half_even.
  pose proof (Z.div_mod num den ltac:(lia)) as Hdiv.
  pose proof (Z.mod_pos_bound num den Hden) as Hmod.
  pose proof (Z.div_pos num den Hnum Hden) as Hq.
  destruct (Z.compare_spec (2 * (num mod den)) den) as [Heq|Hlt|Hgt];
    try destruct (Z.even (num / den)); split; nia.
Qed.

Lemma scaled_digits_nearest m e : nearest_hundredths m e (scaled_digits m e 2).
Proof.
  unfold nearest_hundredths, scaled_digits.
  destruct (0 <=? e) eqn:He.
  - apply Z.leb_le in He. rewrite (Z.max_l 0 (- e)), (Z.max_r 0 e) by lia.
    change (10 ^ 2) with 100. change (2 ^ 0) with 1.
    pose proof (Z.pow_nonneg 2 e ltac:(lia)). split; [nia|].
    rewrite Z.mul_1_r, Z.sub_diag. simpl. lia.
  - apply Z.leb_gt in He. rewrite (Z.max_r 0 (- e)), (Z.max_l 0 e) by lia.
    change (10 ^ 2) with 100. change (2 ^ 0) with 1. rewrite Z.mul_1_r.
    apply round_half_even_nearest; [lia|]. apply Z.pow_pos_nonneg; lia.
Qed.

Lemma py_round_2_rounded percent rounded :
  py_round percent 2 = Ok rounded → rounded_to_2_places percent rounded.
Proof.
  destruct percent as [z|x]; simpl.
  { by intros [= <-]. }
  intros (r & Hr & [= <-])%bind_Ok. unfold py_float_round in Hr.
  destruct x as [s|s| |s m e]; try by injection Hr as <-.
  exists (scaled_digits m e 2). split; [apply scaled_digits_nearest|].
  f_equal. unfold hundredths_to_float.
  destruct (scaled_digits m e 2) as [|n|n]; try by injection Hr as <-.
  change (float_of_Z (10 ^ 2)) with (S754_finite false 100 0) in Hr.
  by destruct (SFdiv _ _ _ _); simplify_eq.
Qed.

(** ** Slices *)

Lemma py_slice_to_length n s :
  py_len_str (py_slice_to n s) = Nat.min n (py_len_str s).
Proof.
  revert n. induction s as [|c s IH]; intros n; simpl; [by destruct n|].
  destruct (is_continuation c) eqn:Hc; simpl.
  - by rewrite Hc, IH.
  - destruct n as [|n]; simpl; [done|]. by rewrite Hc, IH.
Qed.

Lemma py_slice_to_prefix n s : String.prefix (py_slice_to n s) s = true.
Proof.
  revert n. induction s as [|c s IH]; intros n; simpl; [done|].
  destruct (is_continuation c); [|destruct n as [|n]; [done|]]; simpl;
    (destruct (Ascii.ascii_dec c c); [apply IH|done]).
Qed.

Lemma py_slice_to_short n s :
  (py_len_str s ≤ n)%nat → py_slice_to n s = s.
Proof.
  revert n. induction s as [|c s IH]; intros n; simpl; [done|].
  destruct (is_continuation c).
  - intros. f_equal. by apply IH.
  - destruct n as [|n]; [lia|]. intros. f_equal. apply IH. lia.
Qed.

Lemma py_slice_to_long n s :
  (n < py_len_str s)%nat → py_slice_to n s ≠ s.
Proof.
  intros Hlen Heq. apply (f_equal py_len_str) in Heq.
  rewrite py_slice_to_length in Heq. lia.
Qed.

(** Keys outside ASCII are cut at characters, not at bytes. *)
Example py_slice_to_code_points :
  py_len_str "ключи" = 5%nat ∧
  py_slice_to 8 "ключи" = "ключи"%string ∧
  py_len_str "ключ-апи-0001" = 13%nat ∧
  py_slice_to 8 "ключ-апи-0001" = "ключ-апи"%string ∧
  py_slice_to 2 "密码参数" = "密码"%string.
Proof. by vm_compute. Qed.

(** ** [get_dashboard_data] as a whole *)

Section Handler.
Context `{Externals}.

(** Reading the clock is all the two loops over the cache do to the
    state, whatever the clock shows. *)
Lemma valid_cache_loop_frame items acc w :
  ∃ n, (valid_cache_loop items acc w).2 = set_time_calls n w.
Proof.
  revert acc w. induction items as [|[fingerprint data] items IH]; intros acc w.
  { exists (time_calls w). simpl. by rewrite set_time_calls_id. }
  cbn [valid_cache_loop]. unfold mbind at 1, M_bind, time_now.
  edestruct IH as [n ->]. by exists n.
Qed.

Lemma cache_by_model_loop_frame items counts w :
  ∃ n, (cache_by_model_loop items counts w).2 = set_time_calls n w.
Proof.
  revert counts w. induction items as [|[fingerprint data] items IH]; intros counts w.
  { exists (time_calls w). simpl. by rewrite set_time_calls_id. }
  cbn [cache_by_model_loop]. unfold mbind at 1, M_bind, time_now.
  destruct (py_lt _ _); [destruct (response data) as [r|];
    [destruct (model_truthy _)|]|];
    try (edestruct IH as [n ->]; by exists n).
  by eexists.
Qed.

Lemma valid_cache_frame w : ∃ n, (valid_cache w).2 = set_time_calls n w.
Proof. unfold valid_cache, gets, mbind, M_bind. apply valid_cache_loop_frame. Qed.

Lemma cache_by_model_frame w : ∃ n, (cache_by_model w).2 = set_time_calls n w.
Proof. unfold cache_by_model, gets, mbind, M_bind. apply cache_by_model_loop_frame. Qed.

Lemma get_dashboard_data_Ok w d w' :
  get_dashboard_data w = (Ok d, w') →
  let w0 := cleaned w in
  ∃ hourly minutely key_records valid w1 by_model,
    hourly_calls datetime_now (api_call_stats w0) = Ok hourly ∧
    minute_calls datetime_now (api_call_stats w0) = Ok minutely ∧
    api_key_stats (api_call_stats w0) (api_keys w0) = Ok key_records ∧
    valid_cache w0 = (Ok valid, w1) ∧
    cache_by_model w1 = (Ok by_model, w') ∧
    d = {| Out.key_count := Z.of_nat (length (api_keys w0));
           Out.last_24h_calls := last_24h_calls (api_call_stats w0);
           Out.hourly_calls := hourly;
           Out.minute_calls := minutely;
           Out.api_key_stats := key_records;
           Out.cache_entries := py_len (cache w0);
           Out.valid_cache := valid;
           Out.expired_cache := py_len (cache w0) - valid;
           Out.cache_by_model := by_model;
           Out.active_count := active_count (active_requests w');
           Out.active_done := active_done (active_requests w');
           Out.active_pending := active_pending (active_requests w') |}.
Proof.
  unfold get_dashboard_data. intros Hrun.
  repeat (apply M_bind_Ok in Hrun as (? & ? & Hstep & Hrun);
          unfold lift, gets, modify in Hstep;
          first [ injection Hstep as <- <-
                | injection Hstep as Hstep <-; revert Hstep
                | revert Hstep ]).
  injection Hrun as <- <-. intros Hmodels Hvalid Hkeys Hminute Hhour.
  unfold cleaned. by repeat eexists.
Qed.

(** Apart from the count of clock readings, the handler leaves the objects
    as the three cleaning calls made them. *)
Lemma get_dashboard_data_state w d w' :
  get_dashboard_data w = (Ok d, w') → ∃ n, w' = set_time_calls n (cleaned w).
Proof.
  intros (hourly & minutely & key_records & valid & w1 & by_model
          & _ & _ & _ & Hvalid & Hmodels & _)%get_dashboard_data_Ok.
  destruct (valid_cache_frame (cleaned w)) as [n Hn].
  destruct (cache_by_model_frame w1) as [k Hk].
  rewrite Hvalid in Hn. rewrite Hmodels in Hk. simpl in *. subst.
  by exists k.
Qed.

End Handler.

(** ** [reset_stats] *)

Section Reset.
Context `{Externals}.

Lemma password_accepted_verified password_data :
  password_accepted password_data → verification_succeeds password_data.
Proof. intros (s & ? & _ & ?). by exists s. Qed.

Lemma reset_stats_string d s w :
  d !! "password" = Some (JStr s) →
  reset_stats (JDict d) w
  = if decide (s = "") then (Raise (HTTPException 400 "缺少密码参数"), w)
    else match verify_password s with
         | Ok true => (Ok reset_done, set_api_call_stats empty_stats w)
         | Ok false => (Raise (HTTPException 401 "密码错误"), w)
         | Raise e => reset_stats_except e w
         end.
Proof.
  intros Hd. unfold reset_stats, try_except, reset_stats_try, get_password.
  rewrite Hd. simpl. case_decide as Hs.
  - subst s. done.
  - apply String.eqb_neq in Hs. rewrite Hs. simpl.
    unfold mbind, M_bind, lift.
    by destruct (verify_password s) as [[]|e].
Qed.

Lemma reset_stats_no_string password_data w :
  supplied_password password_data = None →
  ∃ status_code detail,
    reset_stats password_data w = (Raise (HTTPException status_code detail), w).
Proof.
  unfold supplied_password, reset_stats, try_except, reset_stats_try, get_password.
  destruct password_data as [|b|z|x|s|l|d]; try by eauto.
  destruct (d !! "password") as [password|]; [|by eauto].
  destruct password as [|[]|z|x|s|l|d']; simpl; try done; try by eauto.
  - destruct (negb (z =? 0)); by eauto.
  - destruct x; by eauto.
  - destruct (negb (bool_decide (l = []))); by eauto.
  - destruct (negb (bool_decide (d' = ∅))); by eauto.
Qed.

Lemma reset_stats_outcome password_data w :
  (password_accepted password_data ∧
   reset_stats password_data w = (Ok reset_done, set_api_call_stats empty_stats w))
  ∨ (¬ password_accepted password_data ∧
     ∃ status_code detail,
       reset_stats password_data w = (Raise (HTTPException status_code detail), w)).
Proof.
  destruct (supplied_password password_data) as [s|] eqn:Hs.
  - assert (∃ d, password_data = JDict d ∧ d !! "password" = Some (JStr s))
      as (d & -> & Hd).
    { unfold supplied_password in Hs. destruct password_data; try done.
      destruct (_ !! _) as [[]|] eqn:?; naive_solver. }
    rewrite (reset_stats_string d s w Hd).
    unfold password_accepted. rewrite Hs.
    case_decide as Hempty.
    { right. split; [|by eauto]. by intros (? & [= <-] & ? & _). }
    destruct (verify_password s) as [[]|e] eqn:Hv.
    + left. split; [|done]. by exists s.
    + right. split; [|by eauto]. intros (? & [= <-] & _ & ?). congruence.
    + right. split; [intros (? & [= <-] & _ & ?); congruence|].
      destruct e; simpl; by eauto.
  - right. split; [|by apply reset_stats_no_string].
    unfold password_accepted. rewrite Hs. by intros (? & ? & _).
Qed.

End Reset.

(** * The claims *)

(** C1. The per-key records come out sorted by [usage_percent] in
    descending order, and the sort is stable: the records of any one usage
    value keep the order of the key enumeration. The result is a function
    of the keys and the statistics, so two calls on the same data agree. *)
Theorem api_key_stats_sorted_stable `{Externals} stats keys ranked :
  api_key_stats stats keys = Ok ranked →
  ∃ records,
    Forall2 (λ api_key record, key_stats stats api_key = Ok record) keys records ∧
    ranked ≡ₚ records ∧
    StronglySorted
      (λ a b, py_ge (Out.usage_percent a) (Out.usage_percent b) = true) ranked ∧
    (∀ percent,
       filter (λ r, py_eq (Out.usage_percent r) percent = true) ranked
       = filter (λ r, py_eq (Out.usage_percent r) percent = true) records) ∧
    (∀ ranked', api_key_stats stats keys = Ok ranked' → ranked' = ranked).
Proof.
  intros Hrun. pose proof Hrun as Hrun'. unfold api_key_stats in Hrun'.
  apply bind_Ok in Hrun' as (records & Hrecords & [= <-]).
  apply mapM_Ok in Hrecords. exists records. split_and!.
  - done.
  - apply py_sort_reverse_perm.
  - apply py_sort_reverse_sorted.
    clear Hrun. induction Hrecords as [|api_key record keys records Hrecord _ IH].
    + constructor.
    + constructor; [|done]. by apply key_stats_ordered in Hrecord.
  - intros percent. apply py_sort_reverse_stable.
  - intros ranked' Hrun'. congruence.
Qed.

Lemma api_key_stats_sorted_stable_witness :
  api_key_stats Demo.stats (api_keys Demo.world) = Ok Demo.ranked ∧
  ∃ records,
    Forall2 (λ api_key record, key_stats Demo.stats api_key = Ok record)
      (api_keys Demo.world) records ∧
    Demo.ranked ≡ₚ records ∧
    StronglySorted
      (λ a b, py_ge (Out.usage_percent a) (Out.usage_percent b) = true) Demo.ranked ∧
    (∀ percent,
       filter (λ r, py_eq (Out.usage_percent r) percent = true) Demo.ranked
       = filter (λ r, py_eq (Out.usage_percent r) percent = true) records) ∧
    (∀ ranked', api_key_stats Demo.stats (api_keys Demo.world) = Ok ranked' →
                ranked' = Demo.ranked).
Proof.
  split; [vm_compute; reflexivity|].
  apply (api_key_stats_sorted_stable Demo.stats (api_keys Demo.world) Demo.ranked).
  vm_compute; reflexivity.
Defined.

(** C2. [usage_percent] is [calls_24h / limit * 100] when the daily limit
    is positive and [0] when it is not; the division is never reached with
    a zero divisor, so it never raises [ZeroDivisionError]. *)
Theorem usage_percent_guarded `{Externals} calls_24h :
  (0 < API_KEY_DAILY_LIMIT →
   usage_percent calls_24h
   = ratio ← py_int_truediv calls_24h API_KEY_DAILY_LIMIT;
     percent ← py_float_mul_int ratio 100;
     Ok (PyFloat percent)) ∧
  (API_KEY_DAILY_LIMIT ≤ 0 → usage_percent calls_24h = Ok (PyInt 0)) ∧
  (∀ message, usage_percent calls_24h ≠ Raise (ZeroDivisionError message)).
Proof.
  split_and!.
  - apply usage_percent_positive_limit.
  - apply usage_percent_no_limit.
  - by intros message [_ ?]%usage_percent_raises.
Qed.

Lemma usage_percent_guarded_witness :
  0 < API_KEY_DAILY_LIMIT ∧
  usage_percent 5 = Ok (PyFloat (S754_finite false 5629499534213120 (-50))) ∧
  (∀ message, usage_percent 5 ≠ Raise (ZeroDivisionError message)).
Proof.
  destruct (usage_percent_guarded 5) as (Hpositive & _ & Hsafe).
  split; [reflexivity|]. split; [|exact Hsafe].
  rewrite Hpositive by reflexivity. vm_compute. reflexivity.
Defined.

(** C3. The totals of the last hour and of the last minute are the sums of
    the buckets of [total] whose label parses to a time not before the
    start of the window; a bucket whose label does not parse is skipped and
    the loops do not raise. *)
Theorem window_totals `{Externals} now stats :
  (∀ s format e, strptime s format = Raise e → is_ValueError e = true) →
  hourly_calls now stats
  = Ok (query_total "%Y-%m-%d %H:00" (now - timedelta 1 0) (total (hourly stats))) ∧
  minute_calls now stats
  = Ok (query_total "%Y-%m-%d %H:%M" (now - timedelta 0 1) (total (minute stats))).
Proof.
  intros Hraises. unfold hourly_calls, minute_calls.
  by rewrite !calls_since_query_total.
Qed.

Lemma window_totals_witness :
  (∀ s format e, Demo.parse s format = Raise e → is_ValueError e = true) ∧
  hourly_calls 63850156200000000 Demo.stats
  = Ok (query_total "%Y-%m-%d %H:00" (63850156200000000 - timedelta 1 0)
          (total (hourly Demo.stats))) ∧
  minute_calls 63850156200000000 Demo.stats
  = Ok (query_total "%Y-%m-%d %H:%M" (63850156200000000 - timedelta 0 1)
          (total (minute Demo.stats))).
Proof.
  assert (∀ s format e, Demo.parse s format = Raise e → is_ValueError e = true)
    as Hparse.
  { intros s format e. unfold Demo.parse.
    destruct (Demo.labels !! s); [destruct (_ && _)|]; by intros [= <-]. }
  split; [exact Hparse|].
  exact (window_totals 63850156200000000 Demo.stats Hparse).
Defined.

(** C4. [calls_24h] is the sum, over the models of the key, of the bucket
    counts of the model, and [model_stats] maps every model to the sum of
    its bucket counts. With a daily limit of 100, a key with 3 calls of
    [m1] and 2 calls of [m2] gets [calls_24h = 5], [usage_percent = 5.0]
    and [model_stats = {"m1": 3, "m2": 2}]. *)
Theorem key_calls_sums `{Externals} stats api_key :
  key_calls stats api_key
  = (sum_counts (sum_counts <$> query_by_key stats api_key),
     sum_counts <$> query_by_key stats api_key) ∧
  (API_KEY_DAILY_LIMIT = 100 →
   sum_counts <$> query_by_key stats api_key = {[ "m1" := 3; "m2" := 2 ]} →
   key_stats stats api_key
   = Ok {| Out.api_key := py_slice_to 8 api_key;
           Out.calls_24h := 5;
           Out.limit := 100;
           Out.usage_percent := PyFloat (S754_finite false 5629499534213120 (-50));
           Out.model_stats := {[ "m1" := 3; "m2" := 2 ]} |} ∧
   py_eq (PyFloat (S754_finite false 5629499534213120 (-50))) (PyInt 5) = true).
Proof.
  split; [apply key_calls_query_by_key|].
  intros Hlimit Hmodels. split; [|done].
  unfold key_stats, usage_percent.
  rewrite key_calls_query_by_key, Hmodels, Hlimit.
  by vm_compute.
Qed.

Lemma key_calls_sums_witness :
  API_KEY_DAILY_LIMIT = 100 ∧
  sum_counts <$> query_by_key Demo.stats Demo.key_1 = {[ "m1" := 3; "m2" := 2 ]} ∧
  key_stats Demo.stats Demo.key_1
  = Ok {| Out.api_key := "AIzaSyA-";
          Out.calls_24h := 5;
          Out.limit := 100;
          Out.usage_percent := PyFloat (S754_finite false 5629499534213120 (-50));
          Out.model_stats := {[ "m1" := 3; "m2" := 2 ]} |}.
Proof.
  assert (sum_counts <$> query_by_key Demo.stats Demo.key_1
          = {[ "m1" := 3; "m2" := 2 ]}) as Hmodels by (vm_compute; reflexivity).
  split; [reflexivity|]. split; [exact Hmodels|].
  exact (proj1 (proj2 (key_calls_sums Demo.stats Demo.key_1) eq_refl Hmodels)).
Defined.

(** C5, as the code has it. [model_stats] has an entry for exactly the
    models that have an entry in the breakdown of the key, each with the
    sum of its bucket counts: a model without an entry is left out, and a
    model whose buckets sum to zero is listed with the count 0. *)
Theorem model_stats_follows_breakdown stats api_key model :
  (key_calls stats api_key).2 !! model
  = sum_counts <$> (query_by_key stats api_key !! model).
Proof. rewrite key_calls_query_by_key. simpl. apply lookup_fmap. Qed.

(** A model that kept its entry but lost all its buckets has no call in the
    window and is listed all the same. *)
Lemma zero_model_listed :
  model_calls Demo.idle_stats Demo.key_1 "m1" = 0 ∧
  (key_calls Demo.idle_stats Demo.key_1).2 !! "m1" = Some 0 ∧
  ¬ zero_models_omitted Demo.idle_stats Demo.key_1.
Proof.
  assert (model_calls Demo.idle_stats Demo.key_1 "m1" = 0) as Hcalls
    by (vm_compute; reflexivity).
  assert ((key_calls Demo.idle_stats Demo.key_1).2 !! "m1" = Some 0) as Hlisted
    by (vm_compute; reflexivity).
  split_and!; [done..|].
  intros Homitted. specialize (Homitted "m1" Hcalls). congruence.
Qed.

(** C6. A request whose password is missing, is not a string or fails
    verification is rejected and leaves every object as it was; only a
    verified password lets [api_call_stats_clean] run, after which the
    statistics are empty. *)
Theorem reset_stats_all_or_nothing `{Externals} password_data w :
  let '(r, w') := reset_stats password_data w in
  (¬ verification_succeeds password_data → is_rejection r ∧ w' = w) ∧
  (is_rejection r → w' = w) ∧
  (∀ reply, r = Ok reply →
     verification_succeeds password_data ∧
     w' = (api_call_stats_clean w).2 ∧
     api_call_stats w' = empty_stats) ∧
  (password_accepted password_data → r = Ok reset_done) ∧
  (is_rejection r ∨ r = Ok reset_done).
Proof.
  destruct (reset_stats_outcome password_data w)
    as [[Hacc ->]|[Hrej (status_code & detail & ->)]].
  - split_and!.
    + intros []. by apply password_accepted_verified.
    + by intros (? & ? & ?).
    + intros reply _. split; [by apply password_accepted_verified|done].
    + done.
    + by right.
  - assert (is_rejection (A:=Out.ResetReply)
              (Raise (HTTPException status_code detail))) by (by eexists _, _).
    split_and!; try done. by left.
Qed.

Lemma reset_stats_all_or_nothing_witness :
  ¬ verification_succeeds (JDict {[ "password" := JStr "guess" ]}) ∧
  is_rejection (reset_stats (JDict {[ "password" := JStr "guess" ]}) Demo.world).1 ∧
  (reset_stats (JDict {[ "password" := JStr "guess" ]}) Demo.world).2 = Demo.world ∧
  password_accepted (JDict {[ "password" := JStr "secret" ]}) ∧
  (reset_stats (JDict {[ "password" := JStr "secret" ]}) Demo.world).1 = Ok reset_done ∧
  api_call_stats (reset_stats (JDict {[ "password" := JStr "secret" ]}) Demo.world).2
  = empty_stats.
Proof.
  assert (¬ verification_succeeds (JDict {[ "password" := JStr "guess" ]})) as Hwrong.
  { intros (s & Hs & Hv). vm_compute in Hs. injection Hs as <-. by vm_compute in Hv. }
  assert (password_accepted (JDict {[ "password" := JStr "secret" ]})) as Hright.
  { exists "secret"%string. split_and!; [by vm_compute|done|by vm_compute]. }
  pose proof (reset_stats_all_or_nothing
                (JDict {[ "password" := JStr "guess" ]}) Demo.world) as Hguess.
  pose proof (reset_stats_all_or_nothing
                (JDict {[ "password" := JStr "secret" ]}) Demo.world) as Hsecret.
  destruct (reset_stats (JDict {[ "password" := JStr "guess" ]}) Demo.world)
    as [r1 w1].
  destruct (reset_stats (JDict {[ "password" := JStr "secret" ]}) Demo.world)
    as [r2 w2].
  destruct Hguess as (Hrejected & _).
  destruct Hsecret as (_ & _ & Hcleared & Haccepted & _).
  destruct (Hrejected Hwrong) as [Hr1 Hw1].
  pose proof (Haccepted Hright) as Hr2.
  destruct (Hcleared _ Hr2) as (_ & _ & Hempty).
  by split_and!.
Defined.

(** C7. In every run of [reset_stats], accepted or rejected, the response
    cache and the active requests are left as they were. *)
Theorem reset_stats_frame `{Externals} password_data w :
  cache (reset_stats password_data w).2 = cache w ∧
  active_requests (reset_stats password_data w).2 = active_requests w.
Proof.
  by destruct (reset_stats_outcome password_data w)
    as [[_ ->]|[_ (status_code & detail & ->)]].
Qed.



(** The figures of the example: four entries, one of them expired and one
    stored for no model. *)
Example demo_cache_figures :
  ∃ d w',
    get_dashboard_data Demo.world = (Ok d, w') ∧
    Out.cache_entries d = 4 ∧
    Out.valid_cache d = 3 ∧
    Out.expired_cache d = 1 ∧
    Out.cache_by_model d = {[ "gemini-pro" := 1; "gemini-flash" := 1 ]} ∧
    Out.hourly_calls d = 4 ∧
    Out.minute_calls d = 3 ∧
    Out.api_key_stats d = Demo.ranked ∧
    (Out.active_count d, Out.active_done d, Out.active_pending d) = (2, 1, 1).
Proof. eexists _, _. split; [by vm_compute|]. by vm_compute. Qed.

(** C9. [active_pending] is [active_count - active_done]; the three counts
    are not negative, since [active_done] counts some of the tasks that
    [active_count] counts. *)
Theorem active_counts (tasks : gmap string Task) :
  active_pending tasks = active_count tasks - active_done tasks ∧
  active_count tasks = Z.of_nat (size tasks) ∧
  active_done tasks = Z.of_nat (size (filter (λ entry, done entry.2 = true) tasks)) ∧
  0 ≤ active_count tasks ∧
  0 ≤ active_done tasks ≤ active_count tasks ∧
  0 ≤ active_pending tasks.
Proof.
  pose proof (active_done_bounds tasks) as Hdone.
  unfold active_pending. split_and!; try done; try lia.
  unfold active_done, dict_values.
  rewrite py_sum_ones, size_filter_items. unfold dict_items. f_equal.
  induction (map_to_list tasks) as [|[key task] l IH]; [done|].
  csimpl. rewrite !filter_cons. simpl.
  destruct (decide (done task = true)); simpl; by rewrite IH.
Qed.

(** C10, as the code has it. The record of a key carries the first 8
    characters of the key: the whole key when it has at most 8 characters,
    and something else than the key when it has more. The usage it reports
    is the usage of the key rounded to 2 decimal places. *)
Theorem key_record_identifier `{Externals} stats api_key record :
  key_stats stats api_key = Ok record →
  Out.api_key record = py_slice_to 8 api_key ∧
  String.prefix (Out.api_key record) api_key = true ∧
  py_len_str (Out.api_key record) = Nat.min 8 (py_len_str api_key) ∧
  ((8 < py_len_str api_key)%nat → Out.api_key record ≠ api_key) ∧
  ((py_len_str api_key ≤ 8)%nat → Out.api_key record = api_key) ∧
  ∃ percent,
    usage_percent (Out.calls_24h record) = Ok percent ∧
    py_round percent 2 = Ok (Out.usage_percent record) ∧
    rounded_to_2_places percent (Out.usage_percent record).
Proof.
  intros (percent & rounded & Hpercent & Hround & ->)%key_stats_Ok.
  cbn [Out.api_key Out.calls_24h Out.usage_percent]. split_and!.
  - done.
  - apply py_slice_to_prefix.
  - apply py_slice_to_length.
  - apply py_slice_to_long.
  - apply py_slice_to_short.
  - exists percent. eauto using py_round_2_rounded.
Qed.

Lemma key_record_identifier_witness :
  key_stats Demo.stats Demo.key_1 = Ok (Demo.record Demo.key_1 5 500 {[ "m1" := 3; "m2" := 2 ]}) ∧
  Out.api_key (Demo.record Demo.key_1 5 500 {[ "m1" := 3; "m2" := 2 ]}) = "AIzaSyA-" ∧
  Out.api_key (Demo.record Demo.key_1 5 500 {[ "m1" := 3; "m2" := 2 ]}) ≠ Demo.key_1.
Proof.
  assert (key_stats Demo.stats Demo.key_1
          = Ok (Demo.record Demo.key_1 5 500 {[ "m1" := 3; "m2" := 2 ]})) as Hrun
    by (vm_compute; reflexivity).
  split; [exact Hrun|].
  destruct (key_record_identifier Demo.stats Demo.key_1 _ Hrun)
    as (Hid & _ & _ & Hlong & _).
  split; [exact Hid|]. apply Hlong. vm_compute. lia.
Defined.

(** A key of at most 8 characters is shown in full. *)
Lemma short_key_in_full :
  key_stats Demo.stats "abc" = Ok (Demo.record "abc" 0 0 ∅) ∧
  Out.api_key (Demo.record "abc" 0 0 ∅) = "abc" ∧
  ¬ key_never_in_full Demo.stats "abc".
Proof.
  assert (key_stats Demo.stats "abc" = Ok (Demo.record "abc" 0 0 ∅)) as Hrun
    by (vm_compute; reflexivity).
  split_and!; [done..|].
  intros Hhidden. by apply (Hhidden _ Hrun).
Qed.

(** * Further properties *)

(** ** Rejections of [reset_stats] *)

Section ResetRejections.
Context `{Externals}.

Lemma password_missing_falsy d :
  password_missing d ↔ py_truthy (get_password d) = false.
Proof.
  unfold password_missing, get_password.
  destruct (d !! "password") as [[|[]|[]|[]|[]|[]|fields]|]; simpl;
    try (split; [done|discriminate]); try (split; [discriminate|done]);
    try done.
  rewrite negb_false_iff, bool_decide_eq_true. done.
Qed.

(** X1. A request without a usable password, that is without the entry or
    with one that Python takes for false, is answered 400 and changes
    nothing, whatever the verifier would say; the empty string is among
    them. *)
Theorem reset_stats_missing_password d w :
  password_missing d →
  reset_stats (JDict d) w = (Raise (HTTPException 400 "缺少密码参数"), w).
Proof.
  intros Hmissing%password_missing_falsy.
  unfold reset_stats, try_except, reset_stats_try. by rewrite Hmissing.
Qed.

(** X2. A body that is not an object, and a password that is present but
    not a string, are answered 422 and change nothing; the verifier is not
    consulted. *)
Theorem reset_stats_ill_typed password_data w :
  ((∀ d, password_data ≠ JDict d) →
   reset_stats password_data w
   = (Raise (HTTPException 422 "请求体格式错误：应为JSON对象"), w)) ∧
  (∀ d, password_data = JDict d → password_ill_typed d →
   reset_stats password_data w
   = (Raise (HTTPException 422 "密码参数类型错误：应为字符串"), w)).
Proof.
  split.
  - intros Hbody. destruct password_data; try done. by destruct (Hbody d).
  - intros d -> [Hpresent Htype].
    rewrite password_missing_falsy in Hpresent.
    apply not_false_is_true in Hpresent.
    unfold reset_stats, try_except, reset_stats_try. rewrite Hpresent. simpl.
    unfold get_password in *.
    destruct (d !! "password") as [[| | | |s| |]|]; try done.
    by destruct (Htype s).
Qed.

(** X3. For a password that is a non-empty string the answer follows the
    verifier: 401 when it returns false, its own [HTTPException] when it
    raises one, and 500 carrying the message of any other exception it
    raises. None of these runs changes the state. *)
Theorem reset_stats_verifier_failure d s w :
  d !! "password" = Some (JStr s) → s ≠ "" →
  (verify_password s = Ok false →
   reset_stats (JDict d) w = (Raise (HTTPException 401 "密码错误"), w)) ∧
  (∀ status_code detail,
     verify_password s = Raise (HTTPException status_code detail) →
     reset_stats (JDict d) w = (Raise (HTTPException status_code detail), w)) ∧
  (∀ e message,
     verify_password s = Raise e → builtin_exception e message →
     reset_stats (JDict d) w
     = (Raise (HTTPException 500 ("重置失败：" +:+ message)), w)).
Proof.
  intros Hd Hs. rewrite (reset_stats_string d s w Hd).
  rewrite decide_False by done. split_and!.
  - by intros ->.
  - by intros ?? ->.
  - by intros e message -> [->|[->|[->|[->| ->]]]].
Qed.

End ResetRejections.

Lemma reset_stats_missing_password_witness :
  password_missing {[ "password" := JStr "" ]} ∧
  reset_stats (JDict {[ "password" := JStr "" ]}) Demo.world
  = (Raise (HTTPException 400 "缺少密码参数"), Demo.world).
Proof.
  assert (password_missing {[ "password" := JStr "" ]}) as Hmissing
    by (by vm_compute).
  split; [exact Hmissing|].
  exact (reset_stats_missing_password _ Demo.world Hmissing).
Defined.

Lemma reset_stats_ill_typed_witness :
  password_ill_typed {[ "password" := JInt 7 ]} ∧
  reset_stats (JDict {[ "password" := JInt 7 ]}) Demo.world
  = (Raise (HTTPException 422 "密码参数类型错误：应为字符串"), Demo.world) ∧
  reset_stats (JList []) Demo.world
  = (Raise (HTTPException 422 "请求体格式错误：应为JSON对象"), Demo.world).
Proof.
  assert (password_ill_typed {[ "password" := JInt 7 ]}) as Hbad.
  { split; [by vm_compute|]. intros s Hs. by vm_compute in Hs. }
  split; [exact Hbad|]. split.
  - exact (proj2 (reset_stats_ill_typed _ Demo.world) _ eq_refl Hbad).
  - apply (proj1 (reset_stats_ill_typed (JList []) Demo.world)). by intros d.
Defined.

Lemma reset_stats_verifier_failure_witness :
  (@verify_password Failing.externals "guess" = Ok false ∧
   @reset_stats Failing.externals (JDict {[ "password" := JStr "guess" ]}) Demo.world
   = (Raise (HTTPException 401 "密码错误"), Demo.world)) ∧
  (@verify_password Failing.externals "busy" = Raise (HTTPException 503 "try later") ∧
   @reset_stats Failing.externals (JDict {[ "password" := JStr "busy" ]}) Demo.world
   = (Raise (HTTPException 503 "try later"), Demo.world)) ∧
  (@verify_password Failing.externals "boom" = Raise (ValueError "bad hash") ∧
   builtin_exception (ValueError "bad hash") "bad hash" ∧
   @reset_stats Failing.externals (JDict {[ "password" := JStr "boom" ]}) Demo.world
   = (Raise (HTTPException 500 "重置失败：bad hash"), Demo.world)).
Proof.
  assert (∀ s : string,
    ({[ "password" := JStr s ]} : gmap string json) !! "password" = Some (JStr s))
    as Hd by (intros s; apply lookup_singleton_eq).
  assert (builtin_exception (ValueError "bad hash") "bad hash") as Hbuiltin
    by (by left).
  split; [|split].
  - split; [reflexivity|].
    exact (proj1 (@reset_stats_verifier_failure Failing.externals _ "guess"
                    Demo.world (Hd _) ltac:(done)) eq_refl).
  - split; [reflexivity|].
    exact (proj1 (proj2 (@reset_stats_verifier_failure Failing.externals _ "busy"
                           Demo.world (Hd _) ltac:(done))) _ _ eq_refl).
  - split; [reflexivity|]. split; [exact Hbuiltin|].
    exact (proj2 (proj2 (@reset_stats_verifier_failure Failing.externals _ "boom"
                           Demo.world (Hd _) ltac:(done))) _ _ eq_refl Hbuiltin).
Defined.

(** ** Sums of counts *)

Lemma sum_counts_nonneg (d : gmap string Z) :
  (∀ k c, d !! k = Some c → 0 ≤ c) → 0 ≤ sum_counts d.
Proof.
  intros Hd. rewrite sum_counts_foldr.
  assert (Forall (λ kc, 0 ≤ kc.2) (map_to_list d)) as Hall.
  { apply Forall_forall. intros [k c] Hin%elem_of_map_to_list. eauto. }
  induction Hall as [|[k c] l Hc _ IH]; csimpl in *; lia.
Qed.

Lemma sum_counts_lookup_le (d : gmap string Z) k c :
  (∀ k c, d !! k = Some c → 0 ≤ c) → d !! k = Some c → c ≤ sum_counts d.
Proof.
  intros Hd Hk. rewrite sum_counts_foldr.
  assert (Forall (λ kc, 0 ≤ kc.2) (map_to_list d)) as Hall.
  { apply Forall_forall. intros [k' c'] Hin%elem_of_map_to_list. eauto. }
  apply elem_of_map_to_list in Hk.
  induction Hall as [|[k' c'] l Hc Hall IH]; [by apply elem_of_nil in Hk|].
  assert (0 ≤ foldr Z.add 0 l.*2) as Hrest.
  { clear -Hall. induction Hall as [|[] ? ? ? IH]; csimpl in *; lia. }
  apply elem_of_cons in Hk as [[= <- <-]|Hk]; csimpl in *; [lia|].
  specialize (IH Hk). lia.
Qed.

(** ** Ranking a list that is already ranked *)

Section SortedInput.
Context {A : Type} (key : A → pynum).

Lemma stable_sort_sorted_id (l : list A) :
  StronglySorted (λ a b, py_lt (key b) (key a) = false) l →
  stable_sort key l = l.
Proof.
  induction 1 as [|x l Hl IH Hx]; simpl; [done|].
  rewrite IH. destruct l as [|y l]; [done|]. simpl.
  apply Forall_cons in Hx as [-> _]. done.
Qed.

Lemma StronglySorted_reverse (R : relation A) (l : list A) :
  StronglySorted R l → StronglySorted (flip R) (reverse l).
Proof.
  induction 1 as [|x l Hl IH Hx]; [constructor|].
  rewrite reverse_cons. apply StronglySorted_app_2.
  - intros y z Hy ->%list_elem_of_singleton. unfold flip.
    rewrite Forall_forall in Hx. apply Hx. by apply elem_of_reverse.
  - done.
  - repeat constructor.
Qed.

Lemma py_sort_reverse_sorted_id (l : list A) :
  StronglySorted (λ a b, py_lt (key a) (key b) = false) l →
  py_sort_reverse key l = l.
Proof.
  intros Hl%StronglySorted_reverse. unfold py_sort_reverse.
  rewrite stable_sort_sorted_id by done. apply reverse_involutive.
Qed.

End SortedInput.

(** ** Further properties of the per-key records *)

Section KeyRecords.
Context `{Externals}.

(** X4. A key without any call on record, be it unknown to the
    statistics or listed without a model, gets a record with no calls, no
    model and a usage of zero, and computing it does not fail. *)
Theorem key_stats_unknown_key stats api_key :
  query_by_key stats api_key = ∅ →
  key_stats stats api_key
  = Ok {| Out.api_key := py_slice_to 8 api_key;
          Out.calls_24h := 0;
          Out.limit := API_KEY_DAILY_LIMIT;
          Out.usage_percent := zero_usage;
          Out.model_stats := ∅ |}.
Proof.
  intros Hnone. unfold key_stats, usage_percent, zero_usage.
  rewrite key_calls_query_by_key, Hnone, fmap_empty, sum_counts_empty.
  destruct (API_KEY_DAILY_LIMIT >? 0) eqn:Hlimit; [|done].
  apply Z.gtb_gt in Hlimit.
  destruct API_KEY_DAILY_LIMIT as [|limit|limit]; try lia. reflexivity.
Qed.

(** X5. In every record the calls of the models add up to [calls_24h], and
    the limit is the configured one. *)
Theorem key_stats_consistent stats api_key record :
  key_stats stats api_key = Ok record →
  Out.calls_24h record = sum_counts (Out.model_stats record) ∧
  Out.limit record = API_KEY_DAILY_LIMIT.
Proof.
  intros (percent & rounded & _ & _ & ->)%key_stats_Ok.
  by rewrite key_calls_query_by_key.
Qed.

Lemma key_stats_unlimited stats api_key :
  API_KEY_DAILY_LIMIT ≤ 0 →
  key_stats stats api_key = Ok (unlimited_record stats api_key).
Proof.
  intros Hlimit. apply key_stats_Ok. exists (PyInt 0), (PyInt 0).
  by rewrite usage_percent_no_limit.
Qed.

Lemma mapM_total {A B} (f : A → Result B) (g : A → B) l :
  (∀ x, f x = Ok (g x)) → mapM f l = Ok (g <$> l).
Proof.
  intros Hf. apply mapM_Ok. induction l; constructor; eauto.
Qed.

(** X6. With a limit that is not positive every key is reported with the
    usage [0], nothing can fail, and the records stay in the order of the
    keys. *)
Theorem api_key_stats_unlimited stats keys :
  API_KEY_DAILY_LIMIT ≤ 0 →
  api_key_stats stats keys = Ok (unlimited_record stats <$> keys).
Proof.
  intros Hlimit. unfold api_key_stats.
  rewrite (mapM_total _ (unlimited_record stats)) by eauto using key_stats_unlimited.
  simpl. f_equal. apply py_sort_reverse_sorted_id.
  induction keys as [|k keys IH]; csimpl; constructor; [done|].
  apply Forall_fmap, Forall_forall. by intros k' _.
Qed.

(** X7. When the records of the keys are already in an order in which no
    record is followed by one of a larger usage, they are returned in that
    order. *)
Theorem api_key_stats_already_ranked stats keys records :
  Forall2 (λ api_key record, key_stats stats api_key = Ok record) keys records →
  StronglySorted
    (λ a b, py_lt (Out.usage_percent a) (Out.usage_percent b) = false) records →
  api_key_stats stats keys = Ok records.
Proof.
  intros Hrecords%mapM_Ok Hsorted. unfold api_key_stats. rewrite Hrecords. simpl.
  f_equal. by apply py_sort_reverse_sorted_id.
Qed.

End KeyRecords.

(** ** The sign of the usage *)

Lemma binary_round_aux_nonneg m e l :
  0 ≤ m → float_nonneg (binary_round_aux prec emax false m e l).
Proof.
  intros Hm. unfold binary_round_aux.
  pose proof (shr_fexp_nonneg m e l Hm) as H1.
  destruct (shr_fexp prec emax m e l) as [mrs' e']; simpl in H1.
  pose proof (shr_fexp_nonneg _ e' loc_Exact
    (round_nearest_even_nonneg _ (loc_of_shr_record mrs') H1)) as H2.
  destruct (shr_fexp prec emax _ e' loc_Exact) as [mrs'' e'']; simpl in H2.
  destruct (shr_m mrs''); [done| |lia].
  by destruct (e'' <=? emax - prec).
Qed.

Lemma SFdiv_nonneg mx ex my ey :
  float_nonneg (SFdiv prec emax (S754_finite false mx ex) (S754_finite false my ey)).
Proof.
  unfold SFdiv.
  pose proof (SFdiv_core_binary_nonneg mx ex my ey) as Hq.
  destruct (SFdiv_core_binary _ _ _ _ _ _) as [[mz ez] lz]; simpl in Hq.
  by apply binary_round_aux_nonneg.
Qed.

Lemma py_int_truediv_nonneg a b q :
  0 ≤ a → 0 < b → py_int_truediv a b = Ok q → float_nonneg q.
Proof.
  intros Ha Hb. unfold py_int_truediv.
  destruct (b =? 0); [done|].
  destruct a as [|a|a], b as [|b|b]; try lia; simpl float_of_Z.
  - by intros [= <-].
  - pose proof (SFdiv_nonneg a 0 b 0) as Hq.
    destruct (SFdiv _ _ _ _); try done; by intros [= <-].
Qed.

Lemma py_float_mul_int_100_nonneg x p :
  float_nonneg x → py_float_mul_int x 100 = Ok p → float_nonneg p.
Proof.
  rewrite py_float_mul_int_100. intros Hx [= <-].
  destruct x as [s|s| |s m e]; try done.
  - by rewrite Hx.
  - rewrite Hx. apply (binary_round_aux_nonneg _ _ loc_Exact). lia.
Qed.

Lemma py_float_round_2_nonneg x r :
  float_nonneg x → py_float_round x 2 = Ok r → float_nonneg r.
Proof.
  unfold py_float_round. destruct x as [s|s| |s m e]; try by intros ? [= <-].
  cbn [float_nonneg]. intros ->.
  destruct (scaled_digits m e 2) as [|n|n]; try by intros [= <-].
  change (float_of_Z (10 ^ 2)) with (S754_finite false 100 0).
  pose proof (SFdiv_nonneg n 0 100 0) as Hr.
  destruct (SFdiv _ _ _ _); try done; by intros [= <-].
Qed.

Lemma Q_of_dyadic_pos m e : Qltb (Q_of_dyadic (Zpos m) e) 0 = false.
Proof.
  apply Qltb_ge. unfold Q_of_dyadic, Qle.
  destruct (0 <=? e) eqn:He; simpl; [|lia].
  apply Z.leb_le in He. pose proof (Z.pow_nonneg 2 e ltac:(lia)). nia.
Qed.

Lemma float_nonneg_ge_0 x : float_nonneg x → py_ge (PyFloat x) (PyInt 0) = true.
Proof.
  destruct x as [s|s| |s m e]; simpl; try done; intros ->; try done.
  unfold py_ge. simpl. by rewrite Q_of_dyadic_pos.
Qed.

Section NonNegative.
Context `{Externals}.

(** X8. When no bucket of a key holds a negative count, the record of the
    key has a [calls_24h] that is not negative, every model count lies
    between 0 and [calls_24h], and the usage is not below zero. *)
Theorem key_stats_nonneg stats api_key record :
  counts_nonneg stats api_key →
  key_stats stats api_key = Ok record →
  0 ≤ Out.calls_24h record ∧
  (∀ model count,
     Out.model_stats record !! model = Some count →
     0 ≤ count ≤ Out.calls_24h record) ∧
  py_ge (Out.usage_percent record) (PyInt 0) = true.
Proof.
  intros Hcounts (percent & rounded & Hpercent & Hround & ->)%key_stats_Ok.
  rewrite key_calls_query_by_key in *. simpl in *.
  assert (∀ model count,
    (sum_counts <$> query_by_key stats api_key) !! model = Some count → 0 ≤ count)
    as Hmodels.
  { intros model count. rewrite lookup_fmap.
    destruct (query_by_key stats api_key !! model) as [buckets|] eqn:Hb; [|done].
    intros [= <-]. apply sum_counts_nonneg. eauto. }
  assert (0 ≤ sum_counts (sum_counts <$> query_by_key stats api_key)) as Hcalls
    by by apply sum_counts_nonneg.
  split_and!; [done| |].
  - intros model count Hcount. split; [eauto|]. by eapply sum_counts_lookup_le.
  - unfold usage_percent in Hpercent.
    destruct (API_KEY_DAILY_LIMIT >? 0) eqn:Hlimit.
    + apply Z.gtb_gt in Hlimit.
      apply bind_Ok in Hpercent as (ratio & Hratio & Hmul).
      apply bind_Ok in Hmul as (x & Hx & [= <-]).
      simpl in Hround. apply bind_Ok in Hround as (r & Hr & [= <-]).
      apply float_nonneg_ge_0.
      eapply py_float_round_2_nonneg; [|done].
      eapply py_float_mul_int_100_nonneg; [|done].
      eapply py_int_truediv_nonneg; [| |done]; [done|lia].
    + injection Hpercent as <-. by injection Hround as <-.
Qed.

End NonNegative.

Lemma key_stats_nonneg_witness :
  counts_nonneg Demo.stats Demo.key_1 ∧
  key_stats Demo.stats Demo.key_1
  = Ok (Demo.record Demo.key_1 5 500 {[ "m1" := 3; "m2" := 2 ]}) ∧
  0 ≤ 5 ∧
  (∀ model count,
     ({[ "m1" := 3; "m2" := 2 ]} : gmap string Z) !! model = Some count →
     0 ≤ count ≤ 5) ∧
  py_ge (PyFloat (hundredths_to_float false 500)) (PyInt 0) = true.
Proof.
  assert (counts_nonneg Demo.stats Demo.key_1) as Hcounts.
  { assert (query_by_key Demo.stats Demo.key_1
            = {[ "m1" := {[ "2024-05-01 10:00" := 2; "2024-05-01 09:00" := 1 ]};
                 "m2" := {[ "2024-05-01 10:00" := 2 ]} ]}) as Hquery
      by (by vm_compute).
    intros model buckets bucket count Hmodel Hbucket. rewrite Hquery in Hmodel.
    apply lookup_insert_Some in Hmodel as [[_ <-]|[_ Hmodel]].
    - apply lookup_insert_Some in Hbucket as [[_ <-]|[_ Hbucket]]; [lia|].
      apply lookup_singleton_Some in Hbucket as [_ <-]. lia.
    - apply lookup_singleton_Some in Hmodel as [_ <-].
      apply lookup_singleton_Some in Hbucket as [_ <-]. lia. }
  assert (key_stats Demo.stats Demo.key_1
          = Ok (Demo.record Demo.key_1 5 500 {[ "m1" := 3; "m2" := 2 ]})) as Hrun
    by (vm_compute; reflexivity).
  split; [exact Hcounts|]. split; [exact Hrun|].
  exact (key_stats_nonneg Demo.stats Demo.key_1 _ Hcounts Hrun).
Defined.

Lemma key_stats_unknown_key_witness :
  query_by_key Demo.stats Demo.key_3 = ∅ ∧
  key_stats Demo.stats Demo.key_3
  = Ok {| Out.api_key := "AIzaSyC-";
          Out.calls_24h := 0;
          Out.limit := 100;
          Out.usage_percent := PyFloat (S754_zero false);
          Out.model_stats := ∅ |}.
Proof.
  assert (query_by_key Demo.stats Demo.key_3 = ∅) as Hnone by (by vm_compute).
  split; [exact Hnone|].
  exact (key_stats_unknown_key Demo.stats Demo.key_3 Hnone).
Defined.

Lemma key_stats_consistent_witness :
  key_stats Demo.stats Demo.key_1
  = Ok (Demo.record Demo.key_1 5 500 {[ "m1" := 3; "m2" := 2 ]}) ∧
  5 = sum_counts {[ "m1" := 3; "m2" := 2 ]} ∧
  100 = API_KEY_DAILY_LIMIT.
Proof.
  assert (key_stats Demo.stats Demo.key_1
          = Ok (Demo.record Demo.key_1 5 500 {[ "m1" := 3; "m2" := 2 ]})) as Hrun
    by (vm_compute; reflexivity).
  split; [exact Hrun|].
  exact (key_stats_consistent Demo.stats Demo.key_1 _ Hrun).
Defined.

Lemma api_key_stats_unlimited_witness :
  @API_KEY_DAILY_LIMIT Unlimited.externals ≤ 0 ∧
  @api_key_stats Unlimited.externals Demo.stats [Demo.key_1; Demo.key_2]
  = Ok [@unlimited_record Unlimited.externals Demo.stats Demo.key_1;
        @unlimited_record Unlimited.externals Demo.stats Demo.key_2].
Proof.
  assert (@API_KEY_DAILY_LIMIT Unlimited.externals ≤ 0) as Hlimit by done.
  split; [exact Hlimit|].
  exact (@api_key_stats_unlimited Unlimited.externals Demo.stats
           [Demo.key_1; Demo.key_2] Hlimit).
Defined.

Lemma api_key_stats_already_ranked_witness :
  Forall2 (λ api_key record, key_stats Demo.stats api_key = Ok record)
    [Demo.key_2; Demo.key_1; Demo.key_4; Demo.key_3] Demo.ranked ∧
  StronglySorted
    (λ a b, py_lt (Out.usage_percent a) (Out.usage_percent b) = false) Demo.ranked ∧
  api_key_stats Demo.stats [Demo.key_2; Demo.key_1; Demo.key_4; Demo.key_3]
  = Ok Demo.ranked.
Proof.
  assert (Forall2 (λ api_key record, key_stats Demo.stats api_key = Ok record)
            [Demo.key_2; Demo.key_1; Demo.key_4; Demo.key_3] Demo.ranked) as Hrecords.
  { repeat constructor; vm_compute; reflexivity. }
  assert (StronglySorted
    (λ a b, py_lt (Out.usage_percent a) (Out.usage_percent b) = false) Demo.ranked)
    as Hsorted.
  { repeat constructor; vm_compute; reflexivity. }
  split; [exact Hrecords|]. split; [exact Hsorted|].
  exact (api_key_stats_already_ranked Demo.stats _ _ Hrecords Hsorted).
Defined.

(** ** The handler as a whole *)

Lemma M_bind_frame {A B} (m : M A) (f : A → M B) (P : World → World → Prop) :
  (∀ w, P w w) → (∀ w1 w2 w3, P w1 w2 → P w2 w3 → P w1 w3) →
  (∀ w, P w (m w).2) → (∀ a w, P w (f a w).2) →
  ∀ w, P w ((m ≫= f) w).2.
Proof.
  intros Hrefl Htrans Hm Hf w. unfold mbind, M_bind.
  specialize (Hm w). destruct (m w) as [[a|e] w1]; simpl in *; [|done].
  eauto.
Qed.

Lemma M_bind_modify {B} (f : World → World) (g : unit → M B) w :
  (modify f ≫= g) w = g tt (f w).
Proof. done. Qed.

Lemma ticks_only_refl w : ticks_only w w.
Proof. exists (time_calls w). by rewrite set_time_calls_id. Qed.

Lemma ticks_only_trans w1 w2 w3 :
  ticks_only w1 w2 → ticks_only w2 w3 → ticks_only w1 w3.
Proof. intros [n ->] [k ->]. by exists k. Qed.

Section Whole.
Context `{Externals}.

Lemma valid_cache_ticks w : ticks_only w (valid_cache w).2.
Proof. apply valid_cache_frame. Qed.

Lemma cache_by_model_ticks w : ticks_only w (cache_by_model w).2.
Proof. apply cache_by_model_frame. Qed.

(** X9. Whether it answers or fails, the handler leaves the statistics,
    the cache and the active requests as its three cleaning calls made
    them, and the keys as they were. *)
Theorem get_dashboard_data_frame w :
  let w' := (get_dashboard_data w).2 in
  api_call_stats w' = clean_expired_stats (api_call_stats w) ∧
  cache w' = clean_expired (cache w) ∧
  active_requests w' = clean_completed (active_requests w) ∧
  api_keys w' = api_keys w.
Proof.
  assert (ticks_only (cleaned w) (get_dashboard_data w).2) as [n ->]; [|done].
  unfold get_dashboard_data. rewrite !M_bind_modify.
  match goal with |- ticks_only _ (_ ?w0).2 => change w0 with (cleaned w) end.
  generalize (cleaned w). clear w.
  repeat (apply M_bind_frame;
          [apply ticks_only_refl|apply ticks_only_trans| |intros ?];
          try (intros w; apply ticks_only_refl);
          try apply valid_cache_ticks; try apply cache_by_model_ticks).
Qed.

Lemma key_stats_identifiers stats keys records :
  Forall2 (λ api_key record, key_stats stats api_key = Ok record) keys records →
  Out.api_key <$> records = py_slice_to 8 <$> keys.
Proof.
  induction 1 as [|k r ks rs Hr _ IH]; [done|]. csimpl. rewrite IH.
  by apply key_stats_Ok in Hr as (? & ? & _ & _ & ->).
Qed.

(** X10. An answer holds one record for every configured key: as many
    records as keys, a key listed twice counting twice, and their
    identifiers are the keys cut to 8 characters. *)
Theorem get_dashboard_data_one_record_per_key w d w' :
  get_dashboard_data w = (Ok d, w') →
  Out.key_count d = Z.of_nat (length (api_keys w)) ∧
  length (Out.api_key_stats d) = length (api_keys w) ∧
  Out.api_key <$> Out.api_key_stats d ≡ₚ py_slice_to 8 <$> api_keys w.
Proof.
  intros (hourly & minutely & key_records & valid & w1 & by_model
          & _ & _ & Hkeys & _ & _ & ->)%get_dashboard_data_Ok; simpl.
  unfold api_key_stats in Hkeys.
  apply bind_Ok in Hkeys as (records & Hrecords%mapM_Ok & [= <-]).
  pose proof (key_stats_identifiers _ _ _ Hrecords) as Hids.
  apply Forall2_length in Hrecords.
  split_and!; [done| |].
  - by rewrite py_sort_reverse_perm, <-Hrecords.
  - by rewrite py_sort_reverse_perm, Hids.
Qed.

End Whole.

Lemma get_dashboard_data_one_record_per_key_witness :
  ∃ d w',
    get_dashboard_data Demo.world = (Ok d, w') ∧
    Out.key_count d = Z.of_nat (length (api_keys Demo.world)) ∧
    length (Out.api_key_stats d) = length (api_keys Demo.world) ∧
    Out.api_key <$> Out.api_key_stats d ≡ₚ py_slice_to 8 <$> api_keys Demo.world.
Proof.
  destruct (get_dashboard_data Demo.world) as [[d|e] w'] eqn:Hrun;
    [|by vm_compute in Hrun].
  exists d, w'. split; [reflexivity|].
  exact (get_dashboard_data_one_record_per_key Demo.world d w' Hrun).
Defined.

(** ** Further properties of the window totals *)

Lemma foldr_add_filter_le (P : string * Z → Prop) `{!∀ x, Decision (P x)}
    (items : list (string * Z)) :
  Forall (λ item, 0 ≤ item.2) items →
  0 ≤ foldr Z.add 0 (filter P items).*2 ≤ foldr Z.add 0 items.*2.
Proof.
  induction 1 as [|[label count] items Hcount _ IH]; [done|].
  rewrite filter_cons. destruct (decide (P (label, count))); csimpl in *; lia.
Qed.

Section WindowOutcome.
Context `{Externals}.

Lemma calls_since_Ok_inv format since items calls v :
  calls_since format since items calls = Ok v →
  v = calls + foldr Z.add 0
        (filter (λ bucket, in_window format since bucket.1 = true) items).*2.
Proof.
  revert calls. induction items as [|[bucket_key count] items IH]; intros calls; simpl.
  { intros [= <-]. lia. }
  rewrite filter_cons. simpl.
  pose proof (eq_refl (in_window format since bucket_key)) as Hwin.
  unfold in_window at 2 in Hwin.
  destruct (strptime bucket_key format) as [bucket_time|e] eqn:Hparse.
  - intros ->%IH. rewrite Z.geb_leb, <-Hwin.
    destruct (in_window format since bucket_key).
    + rewrite decide_True by done. csimpl. lia.
    + by rewrite decide_False by done.
  - rewrite decide_False by (by rewrite Hwin).
    destruct e; try done. apply IH.
Qed.

Lemma calls_since_Raise_inv format since items calls e :
  calls_since format since items calls = Raise e →
  is_ValueError e = false ∧
  ∃ item, item ∈ items ∧ strptime item.1 format = Raise e.
Proof.
  revert calls. induction items as [|[bucket_key count] items IH]; intros calls; simpl.
  { done. }
  destruct (strptime bucket_key format) as [bucket_time|e'] eqn:Hparse.
  - intros (? & item & ? & ?)%IH. split; [done|]. exists item. by rewrite elem_of_cons; auto.
  - assert (is_ValueError e' = false → Raise e' = Raise e (A:=Z) →
            is_ValueError e = false ∧ ∃ item, item ∈ (bucket_key, count) :: items
              ∧ strptime item.1 format = Raise e) as Hhere.
    { intros ? [= <-]. split; [done|]. exists (bucket_key, count).
      split; [apply elem_of_cons; by left|done]. }
    destruct e'; try (by apply Hhere).
    intros (? & item & ? & ?)%IH. split; [done|]. exists item. by rewrite elem_of_cons; auto.
Qed.

Lemma calls_since_outcome format since total :
  match calls_since format since (dict_items total) 0 with
  | Ok v => v = query_total format since total
  | Raise e => is_ValueError e = false ∧ raised_by_label format total e
  end.
Proof.
  destruct (calls_since _ _ _ _) as [v|e] eqn:Hrun.
  - apply calls_since_Ok_inv in Hrun as ->. unfold query_total, dict_items.
    rewrite sum_counts_foldr, Z.add_0_l.
    apply foldr_add_perm. by rewrite map_to_list_filter.
  - apply calls_since_Raise_inv in Hrun as (? & [label count] & Hin & ?).
    split; [done|]. exists label. split; [|done].
    apply elem_of_map_to_list in Hin. by eexists.
Qed.

(** X11. When [strptime] fails on a label with anything but a
    [ValueError], the exception leaves the loop: a total that raises
    raises an exception that [strptime] raised on one of the labels and
    that is not a [ValueError]; a total that returns is the sum over the
    window. *)
Theorem window_totals_outcome now stats :
  match hourly_calls now stats with
  | Ok v =>
      v = query_total "%Y-%m-%d %H:00" (now - timedelta 1 0) (total (hourly stats))
  | Raise e =>
      is_ValueError e = false ∧
      raised_by_label "%Y-%m-%d %H:00" (total (hourly stats)) e
  end ∧
  match minute_calls now stats with
  | Ok v =>
      v = query_total "%Y-%m-%d %H:%M" (now - timedelta 0 1) (total (minute stats))
  | Raise e =>
      is_ValueError e = false ∧
      raised_by_label "%Y-%m-%d %H:%M" (total (minute stats)) e
  end.
Proof. split; apply calls_since_outcome. Qed.

Lemma query_total_bounds format since total :
  total_nonneg total →
  0 ≤ query_total format since total ≤ sum_counts total.
Proof.
  intros Htotal. unfold query_total.
  rewrite !sum_counts_foldr, (foldr_add_perm _ _
    (fmap_Permutation snd _ _ (map_to_list_filter _ total))).
  apply foldr_add_filter_le, Forall_forall.
  intros [label count] Hin%elem_of_map_to_list. eauto.
Qed.

(** X12. When no bucket holds a negative count, the calls of the last hour
    and of the last minute in an answer lie between 0 and the sum of all
    buckets of their granularity; the calls of the last 24 hours are the
    sum of all buckets of theirs, whatever the labels. *)
Theorem get_dashboard_data_totals w d w' :
  total_nonneg (total (hourly (clean_expired_stats (api_call_stats w)))) →
  total_nonneg (total (minute (clean_expired_stats (api_call_stats w)))) →
  get_dashboard_data w = (Ok d, w') →
  let stats := clean_expired_stats (api_call_stats w) in
  0 ≤ Out.hourly_calls d ≤ sum_counts (total (hourly stats)) ∧
  0 ≤ Out.minute_calls d ≤ sum_counts (total (minute stats)) ∧
  Out.last_24h_calls d = sum_counts (total (last_24h stats)).
Proof.
  intros Hhourly Hminute
    (last_hour & last_minute & key_records & valid & w1 & by_model
     & Hh & Hm & _ & _ & _ & ->)%get_dashboard_data_Ok; simpl in *.
  pose proof (calls_since_outcome "%Y-%m-%d %H:00" (datetime_now - timedelta 1 0)
                (total (hourly (clean_expired_stats (api_call_stats w))))) as Hh'.
  pose proof (calls_since_outcome "%Y-%m-%d %H:%M" (datetime_now - timedelta 0 1)
                (total (minute (clean_expired_stats (api_call_stats w))))) as Hm'.
  unfold hourly_calls in Hh. unfold minute_calls in Hm.
  rewrite Hh in Hh'. rewrite Hm in Hm'. subst.
  split_and!; try by apply query_total_bounds.
  apply py_sum_values.
Qed.

End WindowOutcome.

Lemma get_dashboard_data_totals_witness :
  total_nonneg (total (hourly (clean_expired_stats (api_call_stats Demo.world)))) ∧
  total_nonneg (total (minute (clean_expired_stats (api_call_stats Demo.world)))) ∧
  ∃ d w',
    get_dashboard_data Demo.world = (Ok d, w') ∧
    0 ≤ Out.hourly_calls d
      ≤ sum_counts (total (hourly (clean_expired_stats (api_call_stats Demo.world)))) ∧
    0 ≤ Out.minute_calls d
      ≤ sum_counts (total (minute (clean_expired_stats (api_call_stats Demo.world)))) ∧
    Out.last_24h_calls d
    = sum_counts (total (last_24h (clean_expired_stats (api_call_stats Demo.world)))).
Proof.
  assert (∀ total : gmap string Z,
    Forall (λ item, 0 ≤ item.2) (map_to_list total) → total_nonneg total) as Hnonneg.
  { intros total Hall label count Hin%elem_of_map_to_list.
    rewrite Forall_forall in Hall. apply (Hall _ Hin). }
  assert (total_nonneg (total (hourly (clean_expired_stats (api_call_stats Demo.world)))))
    as Hhourly.
  { apply Hnonneg. vm_compute. repeat constructor; discriminate. }
  assert (total_nonneg (total (minute (clean_expired_stats (api_call_stats Demo.world)))))
    as Hminute.
  { apply Hnonneg. vm_compute. repeat constructor; discriminate. }
  split; [exact Hhourly|]. split; [exact Hminute|].
  destruct (get_dashboard_data Demo.world) as [[d|e] w'] eqn:Hrun;
    [|by vm_compute in Hrun].
  exists d, w'. split; [reflexivity|].
  exact (get_dashboard_data_totals Demo.world d w' Hhourly Hminute Hrun).
Defined.

(** ** Further properties of the cache figures *)

Lemma py_ge_lt_trans a b c :
  py_ge b a = true → py_lt b c = true → py_lt a c = true.
Proof.
  rewrite py_ge_spec. unfold py_lt, ordered. intros (Hb & Ha & Hba).
  destruct (py_val a) as [| |p|], (py_val b) as [| |q|], (py_val c) as [| |r|];
    simpl in *; try done.
  rewrite !Qltb_lt. apply Qltb_ge in Hba. intros Hqr.
  exact (Qle_lt_trans _ _ _ Hba Hqr).
Qed.

Lemma entry_model_nonempty data name : entry_model data = Some name → name ≠ "".
Proof.
  unfold entry_model. destruct (response data) as [r|]; [|done]. simpl.
  unfold model_truthy. destruct (model r) as [name'|]; [|done].
  destruct (String.eqb name' "") eqn:Hname; [done|].
  intros [= <-]. by apply String.eqb_neq.
Qed.

Section CacheAnyClock.
Context `{Externals}.

Lemma valid_cache_loop_any items acc w :
  valid_cache_loop items acc w
  = (Ok (acc + Z.of_nat (valid_at (time_calls w) items)),
     set_time_calls (time_calls w + length items) w).
Proof.
  revert acc w. induction items as [|[fingerprint data] items IH]; intros acc w.
  { simpl. by rewrite Z.add_0_r, Nat.add_0_r, set_time_calls_id. }
  cbn [valid_cache_loop valid_at]. unfold mbind at 1, M_bind, time_now.
  rewrite IH. simpl. rewrite Nat.add_succ_r. f_equal. f_equal.
  destruct (py_lt _ _); lia.
Qed.

Lemma valid_at_le t items : (valid_at t items ≤ length items)%nat.
Proof.
  revert t. induction items as [|[fingerprint data] items IH]; intros t; simpl; [done|].
  specialize (IH (S t)). destruct (py_lt _ _); lia.
Qed.

Lemma valid_at_mono t1 t2 items :
  clock_monotone → (t1 ≤ t2)%nat → (valid_at t2 items ≤ valid_at t1 items)%nat.
Proof.
  intros Hclock. revert t1 t2.
  induction items as [|[fingerprint data] items IH]; intros t1 t2 Ht; simpl; [done|].
  specialize (IH (S t1) (S t2) ltac:(lia)).
  destruct (py_lt (time_time t2) _) eqn:H2.
  - rewrite (py_ge_lt_trans _ _ _ (Hclock t1 t2 Ht) H2). lia.
  - destruct (py_lt (time_time t1) _); lia.
Qed.

Lemma valid_cache_any w :
  valid_cache w
  = (Ok (Z.of_nat (valid_at (time_calls w) (dict_items (cache w)))),
     set_time_calls (time_calls w + size (cache w)) w).
Proof.
  unfold valid_cache, gets, mbind, M_bind. rewrite valid_cache_loop_any.
  unfold dict_items. by rewrite length_map_to_list.
Qed.

(** What the second loop adds for a model: at most one for every entry of
    the model that has not expired at its reading. *)
Lemma cache_by_model_loop_any items counts w counts' w' name :
  cache_by_model_loop items counts w = (Ok counts', w') →
  ∃ k : nat,
    (k ≤ valid_at (time_calls w) items)%nat ∧
    (k ≤ length (filter (λ entry : string * CacheEntry,
                    entry_model entry.2 = Some name) items))%nat ∧
    counts' !! name
    = match k with
      | O => counts !! name
      | S _ => Some (default 0 (counts !! name) + Z.of_nat k)
      end.
Proof.
  revert counts w. induction items as [|[fingerprint data] items IH]; intros counts w.
  { simpl. intros [= <- <-]. by exists O. }
  cbn [cache_by_model_loop valid_at]. unfold mbind at 1, M_bind, time_now.
  rewrite filter_cons. simpl.
  destruct (py_lt _ _) eqn:Hvalid.
  - destruct (response data) as [r|] eqn:Hr; [|done].
    assert (entry_model data = model_truthy (model r)) as Hmodel.
    { unfold entry_model. by rewrite Hr. }
    destruct (model_truthy (model r)) as [name'|] eqn:Hm.
    + intros (k & Hk1 & Hk2 & Hc)%IH. simpl in Hk1.
      rewrite count_model_lookup in Hc.
      destruct (decide (name' = name)) as [->|Hne].
      * exists (S k). rewrite decide_True by done. simpl length.
        split_and!; [lia..|]. rewrite Hc.
        destruct k; simpl default; apply (f_equal (@Some Z)); lia.
      * exists k. rewrite decide_False by (rewrite Hmodel; congruence).
        split_and!; [lia|done|done].
    + intros (k & Hk1 & Hk2 & Hc)%IH. simpl in Hk1.
      exists k. rewrite decide_False by (by rewrite Hmodel).
      split_and!; [lia|done|done].
  - intros (k & Hk1 & Hk2 & Hc)%IH. simpl in Hk1.
    exists k. split_and!; [lia| |done].
    destruct (decide _); simpl; lia.
Qed.

Lemma cache_by_model_any w counts w' name n :
  cache_by_model w = (Ok counts, w') →
  counts !! name = Some n →
  1 ≤ n ≤ Z.of_nat (size (entries_of_model name (cache w))) ∧
  n ≤ Z.of_nat (valid_at (time_calls w) (dict_items (cache w))).
Proof.
  unfold cache_by_model, gets, mbind, M_bind.
  intros (k & Hk1 & Hk2 & Hc)%(cache_by_model_loop_any _ _ _ _ _ name) Hn.
  rewrite Hn, lookup_empty in Hc. destruct k as [|k]; [done|].
  injection Hc as ->. unfold entries_of_model. rewrite size_filter_items.
  simpl default. lia.
Qed.

(** X13. Whatever the clock shows, the cache figures of an answer are
    consistent: the valid and the expired entries are each between none
    and all of the entries. *)
Theorem get_dashboard_data_cache_bounds w d w' :
  get_dashboard_data w = (Ok d, w') →
  Out.cache_entries d = Z.of_nat (size (clean_expired (cache w))) ∧
  0 ≤ Out.valid_cache d ≤ Out.cache_entries d ∧
  0 ≤ Out.expired_cache d ≤ Out.cache_entries d.
Proof.
  intros (last_hour & last_minute & key_records & valid & w1 & by_model
          & _ & _ & _ & Hvalid & _ & ->)%get_dashboard_data_Ok; simpl.
  rewrite valid_cache_any in Hvalid. injection Hvalid as <- _.
  pose proof (valid_at_le (time_calls (cleaned w)) (dict_items (cache (cleaned w))))
    as Hle.
  unfold dict_items in Hle at 2. rewrite length_map_to_list in Hle.
  unfold py_len. simpl in *. lia.
Qed.

(** X14. Whatever the clock shows, a model listed in [cache_by_model] has
    a name that is not empty and a count of at least 1 and at most the
    number of entries the cache holds for the model. *)
Theorem get_dashboard_data_models_listed w d w' name n :
  get_dashboard_data w = (Ok d, w') →
  Out.cache_by_model d !! name = Some n →
  name ≠ "" ∧
  1 ≤ n ≤ Z.of_nat (size (entries_of_model name (clean_expired (cache w)))).
Proof.
  intros (last_hour & last_minute & key_records & valid & w1 & by_model
          & _ & _ & _ & Hvalid & Hmodels & ->)%get_dashboard_data_Ok Hn; simpl in *.
  rewrite valid_cache_any in Hvalid. injection Hvalid as _ <-.
  destruct (cache_by_model_any _ _ _ _ _ Hmodels Hn) as [[H1 Hsize] _].
  simpl in Hsize. split; [|done].
  assert (size (entries_of_model name (clean_expired (cache w))) ≠ 0%nat) as Hne by lia.
  apply map_size_ne_0_lookup in Hne as (fingerprint & data & Hdata).
  apply map_lookup_filter_Some in Hdata as [_ Hmodel].
  by eapply entry_model_nonempty.
Qed.

(** X15. When the clock does not go backwards, no model is listed in
    [cache_by_model] with more entries than [valid_cache] counts, although
    the two figures are taken at different readings of the clock. *)
Theorem get_dashboard_data_models_within_valid w d w' name n :
  clock_monotone →
  get_dashboard_data w = (Ok d, w') →
  Out.cache_by_model d !! name = Some n →
  n ≤ Out.valid_cache d.
Proof.
  intros Hclock
    (last_hour & last_minute & key_records & valid & w1 & by_model
     & _ & _ & _ & Hvalid & Hmodels & ->)%get_dashboard_data_Ok Hn; simpl in *.
  rewrite valid_cache_any in Hvalid. injection Hvalid as <- <-.
  destruct (cache_by_model_any _ _ _ _ _ Hmodels Hn) as [_ Hle].
  simpl in Hle.
  pose proof (valid_at_mono (time_calls (cleaned w))
                (time_calls (cleaned w) + size (cache (cleaned w)))
                (dict_items (cache (cleaned w))) Hclock ltac:(lia)) as Hmono.
  simpl in Hmono. lia.
Qed.

End CacheAnyClock.

Lemma get_dashboard_data_cache_bounds_witness :
  ∃ d w',
    get_dashboard_data Demo.world = (Ok d, w') ∧
    Out.cache_entries d = Z.of_nat (size (clean_expired (cache Demo.world))) ∧
    0 ≤ Out.valid_cache d ≤ Out.cache_entries d ∧
    0 ≤ Out.expired_cache d ≤ Out.cache_entries d.
Proof.
  destruct (get_dashboard_data Demo.world) as [[d|e] w'] eqn:Hrun;
    [|by vm_compute in Hrun].
  exists d, w'. split; [reflexivity|].
  exact (get_dashboard_data_cache_bounds Demo.world d w' Hrun).
Defined.

Lemma get_dashboard_data_models_listed_witness :
  ∃ d w',
    get_dashboard_data Demo.world = (Ok d, w') ∧
    Out.cache_by_model d !! "gemini-pro" = Some 1 ∧
    "gemini-pro"%string ≠ ""%string ∧
    1 ≤ 1 ≤ Z.of_nat (size (entries_of_model "gemini-pro"
                               (clean_expired (cache Demo.world)))).
Proof.
  destruct (get_dashboard_data Demo.world) as [[d|e] w'] eqn:Hrun;
    [|by vm_compute in Hrun].
  assert (Out.cache_by_model d !! "gemini-pro" = Some 1) as Hlisted.
  { vm_compute in Hrun. by injection Hrun as <- _. }
  exists d, w'. split; [reflexivity|]. split; [exact Hlisted|].
  exact (get_dashboard_data_models_listed Demo.world d w' _ _ Hrun Hlisted).
Defined.

Lemma get_dashboard_data_models_within_valid_witness :
  clock_monotone ∧
  ∃ d w',
    get_dashboard_data Demo.world = (Ok d, w') ∧
    Out.cache_by_model d !! "gemini-pro" = Some 1 ∧
    1 ≤ Out.valid_cache d.
Proof.
  assert clock_monotone as Hclock by (by intros i j _).
  split; [exact Hclock|].
  destruct (get_dashboard_data Demo.world) as [[d|e] w'] eqn:Hrun;
    [|by vm_compute in Hrun].
  assert (Out.cache_by_model d !! "gemini-pro" = Some 1) as Hlisted.
  { vm_compute in Hrun. by injection Hrun as <- _. }
  exists d, w'. split; [reflexivity|]. split; [exact Hlisted|].
  exact (get_dashboard_data_models_within_valid Demo.world d w' _ _
           Hclock Hrun Hlisted).
Defined.

(** ** Entries without a response *)

Section MissingResponse.
Context `{Externals}.
Variable now : pynum.
Hypothesis clock_frozen : ∀ n, time_time n = now.

Lemma cache_by_model_loop_outcome items counts w :
  match (cache_by_model_loop items counts w).1 with
  | Ok _ =>
      Forall (λ entry : string * CacheEntry,
                still_valid now entry.2 → is_Some (response entry.2)) items
  | Raise e =>
      e = AttributeError "'dict' object has no attribute 'model'" ∧
      Exists (λ entry : string * CacheEntry,
                still_valid now entry.2 ∧ response entry.2 = None) items
  end.
Proof.
  revert counts w. induction items as [|[fingerprint data] items IH]; intros counts w.
  { simpl. constructor. }
  cbn [cache_by_model_loop]. unfold mbind at 1, M_bind.
  rewrite (time_now_frozen now clock_frozen).
  assert (∀ counts1 w1,
    (still_valid now data → is_Some (response data)) →
    match (cache_by_model_loop items counts1 w1).1 with
    | Ok _ =>
        Forall (λ entry : string * CacheEntry,
                  still_valid now entry.2 → is_Some (response entry.2))
          ((fingerprint, data) :: items)
    | Raise e =>
        e = AttributeError "'dict' object has no attribute 'model'" ∧
        Exists (λ entry : string * CacheEntry,
                  still_valid now entry.2 ∧ response entry.2 = None)
          ((fingerprint, data) :: items)
    end) as Hrest.
  { intros counts1 w1 Hdata. specialize (IH counts1 w1).
    destruct (cache_by_model_loop items counts1 w1).1 as [?|e].
    - by constructor.
    - destruct IH as [-> IH]. split; [done|]. by apply Exists_cons_tl. }
  destruct (py_lt now (get_expiry_time data)) eqn:Hvalid.
  - destruct (response data) as [r|] eqn:Hr.
    + destruct (model_truthy (model r)); apply Hrest; intros _;
        try rewrite Hr; by eexists.
    + simpl. split; [done|]. apply Exists_cons_hd. by split.
  - apply Hrest. unfold still_valid. by rewrite Hvalid.
Qed.

(** X16. Under a clock that stands still, the per-model loop fails exactly
    when an entry that has not expired has no response, and it fails with
    [AttributeError]; an expired entry without a response does no harm. *)
Theorem cache_by_model_outcome w :
  match (cache_by_model w).1 with
  | Ok _ =>
      ∀ fingerprint data,
        cache w !! fingerprint = Some data →
        still_valid now data → is_Some (response data)
  | Raise e =>
      e = AttributeError "'dict' object has no attribute 'model'" ∧
      ∃ fingerprint data,
        cache w !! fingerprint = Some data ∧
        still_valid now data ∧ response data = None
  end.
Proof.
  unfold cache_by_model, gets, mbind, M_bind.
  pose proof (cache_by_model_loop_outcome (dict_items (cache w)) ∅ w) as Hloop.
  destruct (cache_by_model_loop _ _ _).1 as [counts|e].
  - intros fingerprint data Hdata%elem_of_map_to_list.
    rewrite Forall_forall in Hloop. apply (Hloop _ Hdata).
  - destruct Hloop as [-> ([fingerprint data] & Hin & Hvalid & Hnone)%Exists_exists].
    split; [done|]. exists fingerprint, data.
    by apply elem_of_map_to_list in Hin.
Qed.

End MissingResponse.

Lemma cache_by_model_outcome_witness :
  (∀ n : nat, time_time n = Demo.clock) ∧
  (cache_by_model Demo.world).1
  = Ok ({[ "gemini-pro" := 1; "gemini-flash" := 1 ]} : gmap string Z) ∧
  ∀ fingerprint data,
    cache Demo.world !! fingerprint = Some data →
    still_valid Demo.clock data → is_Some (response data).
Proof.
  split; [reflexivity|].
  assert ((cache_by_model Demo.world).1
          = Ok ({[ "gemini-pro" := 1; "gemini-flash" := 1 ]} : gmap string Z))
    as Hrun by (vm_compute; reflexivity).
  split; [exact Hrun|].
  pose proof (cache_by_model_outcome Demo.clock (λ _, eq_refl) Demo.world) as Hout.
  by rewrite Hrun in Hout.
Defined.
